(** * CHECK_B4N: the ban-check proxy of [app.py]

    A shallow embedding of the Python module [app.py] (the Flask handlers
    [check] and [get_full_info], the aggregator [check_banned_fast], the two
    upstream clients [get_player_info] and [check_ban_status], and the
    [functools.lru_cache] wrapper [get_player_info_cached]), followed by the
    properties of the design document.

    Conventions of the embedding.
    - A Python [str] is the list of its Unicode code points, so that [len],
      slicing and [str.isdigit] count and classify what Python counts and
      classifies.
    - A value decoded from JSON is a [pyval]; a float is an IEEE 754 value
      in the representation of [SpecFloat].
    - Python exceptions are the constructor [Raise] of [result]; the only
      distinction the module makes is [requests.Timeout] against everything
      else.
    - The world of a request is an oracle: what the upstream services
      answer to each URL, and which diagnostic lines the standard output
      takes.  Every call of [requests.get] is recorded in the state, next to
      the process-wide cache.
    - The body of a response is the Python value handed to [json.dumps];
      building the response fails, as the UTF-8 encoding of its text does,
      when a string of that value holds a lone surrogate.
    - A handler returns a response or raises; Flask answers an exception
      that leaves a handler with status 500.
    - Limits of the interpreter (recursion depth, memory) are outside the
      model. *)

From Stdlib Require Import ZArith NArith List String Ascii Bool Lia SpecFloat
  DecimalString.
Import ListNotations.

Set Implicit Arguments.
#[local] Set Warnings "-register-all".

(** ** Python strings *)

Module PyStr.

Definition pystr := list N.

(** The code points of an ASCII literal. *)
Definition lit (s : string) : pystr :=
  List.map N_of_ascii (list_ascii_of_string s).

Definition eq_dec : forall a b : pystr, {a = b} + {a <> b} :=
  list_eq_dec N.eq_dec.

Definition eqb (a b : pystr) : bool := if eq_dec a b then true else false.

(** U+0020, the separator of [str.split(" ")] and [" ".join]. *)
Definition space : N := 32%N.

(** [s.split(" ")]: cut at every single space; never the empty list. *)
Fixpoint split_space (s : pystr) : list pystr :=
  match s with
  | [] => [[]]
  | c :: r =>
      if N.eqb c space then [] :: split_space r
      else match split_space r with
           | t :: ts => (c :: t) :: ts
           | [] => [[c]]
           end
  end.

(** [" ".join(parts)] *)
Fixpoint join_space (parts : list pystr) : pystr :=
  match parts with
  | [] => []
  | [t] => t
  | t :: ts => t ++ space :: join_space ts
  end.

(** The ranges of code points [c] with [chr(c).isdigit()], that is, with
    Unicode property Numeric_Type=Digit or Numeric_Type=Decimal (Unicode
    14.0.0, the database of CPython 3.11). *)
Definition digit_ranges : list (N * N) :=
  [ (48, 57); (178, 179); (185, 185); (1632, 1641); (1776, 1785);
    (1984, 1993); (2406, 2415); (2534, 2543); (2662, 2671); (2790, 2799);
    (2918, 2927); (3046, 3055); (3174, 3183); (3302, 3311); (3430, 3439);
    (3558, 3567); (3664, 3673); (3792, 3801); (3872, 3881); (4160, 4169);
    (4240, 4249); (4969, 4977); (6112, 6121); (6160, 6169); (6470, 6479);
    (6608, 6618); (6784, 6793); (6800, 6809); (6992, 7001); (7088, 7097);
    (7232, 7241); (7248, 7257); (8304, 8304); (8308, 8313); (8320, 8329);
    (9312, 9320); (9332, 9340); (9352, 9360); (9450, 9450); (9461, 9469);
    (9471, 9471); (10102, 10110); (10112, 10120); (10122, 10130);
    (42528, 42537); (43216, 43225); (43264, 43273); (43472, 43481);
    (43504, 43513); (43600, 43609); (44016, 44025); (65296, 65305);
    (66720, 66729); (68160, 68163); (68912, 68921); (69216, 69224);
    (69714, 69722); (69734, 69743); (69872, 69881); (69942, 69951);
    (70096, 70105); (70384, 70393); (70736, 70745); (70864, 70873);
    (71248, 71257); (71360, 71369); (71472, 71481); (71904, 71913);
    (72016, 72025); (72784, 72793); (73040, 73049); (73120, 73129);
    (92768, 92777); (92864, 92873); (93008, 93017); (120782, 120831);
    (123200, 123209); (123632, 123641); (125264, 125273);
    (127232, 127242); (130032, 130041) ]%N.

Definition char_isdigit (c : N) : bool :=
  existsb (fun r => N.leb (fst r) c && N.leb c (snd r)) digit_ranges.

(** [s.isdigit()]: at least one character, and all of them digits. *)
Definition isdigit (s : pystr) : bool :=
  match s with
  | [] => false
  | _ => forallb char_isdigit s
  end.

(** The ten ASCII decimal digits, the reading of "decimal digit" that
    excludes signs, points and every other script. *)
Definition char_is_ascii_digit (c : N) : bool :=
  N.leb 48 c && N.leb c 57.

Definition all_ascii_digits (s : pystr) : bool :=
  match s with
  | [] => false
  | _ => forallb char_is_ascii_digit s
  end.

(** [str(n)] for an [int]. *)
Definition of_Z (z : Z) : pystr := lit (NilZero.string_of_int (Z.to_int z)).

End PyStr.

Import PyStr.

(** The emoji that prefix the texts of the module. *)
Definition CROSS_MARK : N := 10060%N.         (* U+274C *)
Definition CHECK_MARK : N := 9989%N.          (* U+2705 *)
Definition NO_ENTRY : N := 128683%N.          (* U+1F6AB *)
Definition VARIATION_16 : N := 65039%N.       (* U+FE0F *)

(** [emoji ++ " " ++ text] *)
Definition marked (emoji : list N) (text : string) : pystr :=
  emoji ++ PyStr.space :: PyStr.lit text.

(** ** Values decoded from JSON *)

Inductive pyval : Type :=
| PNone
| PBool (b : bool)
| PInt (z : Z)
| PFloat (f : spec_float)
| PStr (s : pystr)
| PList (l : list pyval)
| PDict (d : list (pystr * pyval)).

(** A [dict] is the association list of its items; the first binding of a
    key is the one that counts. *)
Fixpoint dict_lookup (key : pystr) (d : list (pystr * pyval)) : option pyval :=
  match d with
  | [] => None
  | (k, v) :: rest => if PyStr.eqb key k then Some v else dict_lookup key rest
  end.

Definition dict_keys (d : list (pystr * pyval)) : list pystr :=
  nodup PyStr.eq_dec (List.map fst d).

(** Truth value of an object, as [if x], [not x] and [bool(x)] compute it. *)
Definition truthy (v : pyval) : bool :=
  match v with
  | PNone => false
  | PBool b => b
  | PInt z => negb (Z.eqb z 0)
  | PFloat (S754_zero _) => false
  | PFloat _ => true
  | PStr s => negb (Nat.eqb (List.length s) 0)
  | PList l => negb (Nat.eqb (List.length l) 0)
  | PDict d => negb (Nat.eqb (List.length d) 0)
  end.

(** ** Exceptions *)

Inductive exn : Type :=
| RequestsTimeout    (* requests.Timeout *)
| OtherError.    (* any other subclass of Exception *)

Inductive result (A : Type) : Type :=
| Ok (a : A)
| Raise (e : exn).

Arguments Ok {A} a.
Arguments Raise {A} e.

Definition rbind {A B : Type} (r : result A) (k : A -> result B) : result B :=
  match r with
  | Ok a => k a
  | Raise e => Raise e
  end.

Notation "'let*' x ':=' r 'in' k" := (rbind r (fun x => k))
  (at level 10, x name, r at level 100, k at level 200).

(** [d.get(key, default)] on the items of a dict. *)
Definition dict_get (d : list (pystr * pyval)) (key : pystr) (default : pyval)
  : pyval :=
  match dict_lookup key d with
  | Some v => v
  | None => default
  end.

(** [o.get(key, default)]: only a [dict] has the method. *)
Definition py_get (o : pyval) (key : pystr) (default : pyval) : result pyval :=
  match o with
  | PDict d => Ok (dict_get d key default)
  | _ => Raise OtherError
  end.

(** [len(o)] *)
Definition py_len (o : pyval) : result nat :=
  match o with
  | PStr s => Ok (List.length s)
  | PList l => Ok (List.length l)
  | PDict d => Ok (List.length (dict_keys d))
  | _ => Raise OtherError
  end.

(** [o[:n]]: strings and lists can be sliced, a [dict] cannot. *)
Definition py_prefix (n : nat) (o : pyval) : result pyval :=
  match o with
  | PStr s => Ok (PStr (firstn n s))
  | PList l => Ok (PList (firstn n l))
  | _ => Raise OtherError
  end.

(** [o + s] for a [str] [s] *)
Definition py_add_str (o : pyval) (s : pystr) : result pyval :=
  match o with
  | PStr t => Ok (PStr (t ++ s))
  | _ => Raise OtherError
  end.

(** ** The records of the module *)

(** The dict returned by [get_player_info]: ten keys that every return
    statement sets, and ["signature"], which only the parsed record has. *)
Record player_info : Type := {
  nickname : pyval;
  region : pyval;
  lastLoginAt : pyval;
  lastLoginReadable : pyval;
  createAt : pyval;
  createAtReadable : pyval;
  level : pyval;
  experience : pyval;
  rank : pyval;
  guild : pyval;
  signature : option pyval
}.

(** The dict returned by [check_ban_status]. *)
Record ban_info : Type := {
  is_banned : pyval;
  period : pyval;
  success : bool
}.

(** ** The world and the state of the process *)

(** What [requests.get(url, ...)] does: it returns a response, whose body
    is JSON ([Some]) or not ([None], and [.json()] raises), or it raises
    [requests.Timeout], or it raises something else. *)
Inductive http_outcome : Type :=
| Responded (status_code : Z) (json : option pyval)
| TimedOut
| Failed.

Record response : Type := {
  status_code : Z;
  body_json : option pyval
}.

(** The diagnostic lines of the module, by the [print] that writes them
    and the values it formats. *)
Inductive log_line : Type :=
| InfoError (uid : pystr) (status : Z)      (* line 28, [INFO ERROR] *)
| TimeoutError (uid : pystr)                (* line 98, [TIMEOUT ERROR] *)
| PlayerInfoError (uid : pystr) (e : exn)   (* line 112, [PLAYER INFO ERROR] *)
| RouteError (uid : pystr) (e : exn)        (* line 223, [ROUTE ERROR] *)
| FullInfoError (uid : pystr) (e : exn).    (* line 271, [FULL INFO ERROR] *)

Definition line_uid (line : log_line) : pystr :=
  match line with
  | InfoError uid _ => uid
  | TimeoutError uid => uid
  | PlayerInfoError uid _ => uid
  | RouteError uid _ => uid
  | FullInfoError uid _ => uid
  end.

(** The surroundings of one request: [http url] is what the upstream
    services answer, [stdout line] whether the standard output can encode
    the line ([print] raises [UnicodeEncodeError] when it cannot). *)
Record World : Type := {
  http : pystr -> http_outcome;
  stdout : log_line -> bool
}.

Definition cache_key : Type := (pystr * pystr)%type.

Definition cache_key_eq_dec : forall a b : cache_key, {a = b} + {a <> b}.
Proof. decide equality; apply PyStr.eq_dec. Defined.

(** [st_cache]: the entries of the [lru_cache], least recently used first.
    [st_calls]: the URLs fetched so far, oldest first. *)
Record State : Type := {
  st_cache : list (cache_key * player_info);
  st_calls : list pystr
}.

Definition initial_state : State := {| st_cache := []; st_calls := [] |}.

(** Computations that read and update the state. *)
Definition M (A : Type) : Type := State -> A * State.

Definition ret {A : Type} (a : A) : M A := fun st => (a, st).

Definition bind {A B : Type} (m : M A) (k : A -> M B) : M B :=
  fun st => let '(a, st1) := m st in k a st1.

Notation "'do' x '<-' m ';' k" := (bind m (fun x => k))
  (at level 10, x name, m at level 100, k at level 200).

(** [requests.get(url, ...)] *)
Definition requests_get (w : World) (url : pystr) : M (result response) :=
  fun st =>
    (match http w url with
     | Responded code body =>
         Ok {| status_code := code; body_json := body |}
     | TimedOut => Raise RequestsTimeout
     | Failed => Raise OtherError
     end,
     {| st_cache := st_cache st; st_calls := st_calls st ++ [url] |}).

(** [res.json()] *)
Definition response_json (res : response) : result pyval :=
  match body_json res with
  | Some v => Ok v
  | None => Raise OtherError
  end.

(** [print(line)] *)
Definition py_print (w : World) (line : log_line) : result unit :=
  if stdout w line then Ok tt else Raise OtherError.

(** A lone surrogate, U+D800 to U+DFFF: the one kind of code point that
    UTF-8 does not encode. *)
Definition is_surrogate (c : N) : bool := N.leb 55296 c && N.leb c 57343.

Definition utf8_text (s : pystr) : bool :=
  forallb (fun c => negb (is_surrogate c)) s.

(** Whether the text that [json.dumps(v, ensure_ascii=False)] writes can
    be encoded as UTF-8: no key and no string of [v] holds a surrogate. *)
Fixpoint utf8_encodable (v : pyval) : bool :=
  match v with
  | PStr s => utf8_text s
  | PList l => forallb utf8_encodable l
  | PDict d =>
      forallb (fun item => utf8_text (fst item) && utf8_encodable (snd item)) d
  | _ => true
  end.

(** ** [functools.lru_cache]

    The bounded wrapper of CPython: a hit moves the entry to the
    most-recently-used end and returns the stored result; a miss calls the
    function and stores the result, evicting the least recently used entry
    when the cache already holds [maxsize] entries. *)

Section LruCache.

Variables K V : Type.
Variable K_eq_dec : forall a b : K, {a = b} + {a <> b}.
Variable maxsize : nat.

(** Least recently used first. *)
Definition lru : Type := list (K * V).

Definition lru_keys (c : lru) : list K := List.map fst c.

Fixpoint lru_find (k : K) (c : lru) : option V :=
  match c with
  | [] => None
  | (k', v) :: rest => if K_eq_dec k k' then Some v else lru_find k rest
  end.

Definition lru_remove (k : K) (c : lru) : lru :=
  filter (fun e => if K_eq_dec k (fst e) then false else true) c.

(** A hit: the entry becomes the most recently used one. *)
Definition lru_promote (k : K) (v : V) (c : lru) : lru :=
  lru_remove k c ++ [(k, v)].

(** After a miss, once the function has returned [v].  The first test is
    the wrapper's second look at the cache, for a result stored by
    another caller while the function ran. *)
Definition lru_store (k : K) (v : V) (c : lru) : lru :=
  match lru_find k c with
  | Some _ => c
  | None =>
      if Nat.leb maxsize (List.length c)
      then List.tl c ++ [(k, v)]
      else c ++ [(k, v)]
  end.

End LruCache.

(** ** The module [app.py] *)

Definition INFO_API : pystr := lit "https://info-api-ecru-ten.vercel.app/get?uid=".
Definition BAN_API : pystr :=
  lit "https://ff.garena.com/api/antihack/check_banned?lang=en&uid=".

(** [@lru_cache(maxsize=100)] *)
Definition CACHE_MAXSIZE : nat := 100.

(** The texts of the module that are not plain ASCII. *)
Definition FETCH_FAILED : pystr := marked [CROSS_MARK] "Fetch failed".
Definition TIMEOUT_TEXT : pystr := marked [CROSS_MARK] "Timeout".
Definition ERROR_TEXT : pystr := marked [CROSS_MARK] "Error".
Definition UNKNOWN : pystr := marked [CROSS_MARK] "Unknown".
Definition NOT_AVAILABLE : pystr := marked [CROSS_MARK] "Not available".
Definition BANNED : pystr := marked [NO_ENTRY] "BANNED".
Definition NOT_BANNED : pystr := marked [CHECK_MARK] "NOT BANNED".

(** The keys of the aggregated result and of the error bodies. *)
Definition KEY_STATUS : pystr := marked [CHECK_MARK] "Status".
Definition KEY_UID : pystr := marked [127380%N] "UID".
Definition KEY_NICKNAME : pystr := marked [127991%N; VARIATION_16] "Nickname".
Definition KEY_REGION : pystr := marked [127757%N] "Region".
Definition KEY_LEVEL : pystr := marked [11088%N] "Level".
Definition KEY_EXPERIENCE : pystr := marked [9889%N] "Experience".
Definition KEY_RANK : pystr := marked [128202%N] "Rank".
Definition KEY_GUILD : pystr := marked [128101%N] "Guild".
Definition KEY_LAST_LOGIN : pystr := marked [128338%N] "Last Login".
Definition KEY_CREATED_AT : pystr := marked [127381%N] "Created At".
Definition KEY_ACCOUNT : pystr := marked [128274%N] "Account".
Definition KEY_DURATION : pystr := marked [9203%N] "Duration".
Definition KEY_BANNED : pystr := marked [128202%N] "Banned?".
Definition KEY_POWERED_BY : pystr := marked [128142%N] "Powered by".
Definition KEY_CHANNEL : pystr := marked [128225%N] "Channel".
Definition KEY_BIO : pystr := marked [9999%N; VARIATION_16] "BIO".
Definition KEY_ERROR : pystr := marked [9888%N; VARIATION_16] "error".
Definition KEY_EXCEPTION : pystr := marked [128165%N] "exception".
Definition KEY_STATUS_CODE : pystr := lit "status_code".

(** A Flask [Response]: the status and the value given to [json.dumps]. *)
Record http_response : Type := {
  resp_status : Z;
  resp_body : pyval
}.

(** The query string of a request to [/check]. *)
Record query_args : Type := {
  arg_uid : option pystr;
  arg_server : option pystr
}.

(** [request.args.get(name, default)] *)
Definition args_get (a : option pystr) (default : pystr) : pystr :=
  match a with
  | Some s => s
  | None => default
  end.

(** The three [return] statements of [get_player_info] outside the parsed
    record differ in the nickname only. *)
Definition fallback_info (nick server : pystr) : player_info :=
  {| nickname := PStr nick;
     region := PStr server;
     lastLoginAt := PStr (lit "0");
     lastLoginReadable := PStr UNKNOWN;
     createAt := PStr (lit "0");
     createAtReadable := PStr UNKNOWN;
     level := PStr (lit "0");
     experience := PStr (lit "0");
     rank := PStr (lit "Unknown");
     guild := PStr (lit "None");
     signature := None |}.

Definition ban_failed : ban_info :=
  {| is_banned := PInt 0; period := PInt 0; success := false |}.

(** [parse_date_string], the function nested in [get_player_info].  The
    [try] around [split] catches the [AttributeError] of a value that is
    not a [str]. *)
Definition parse_date_string (date_str : pyval) : pyval :=
  if negb (truthy date_str) then PStr UNKNOWN
  else
    match date_str with
    | PStr s =>
        let date_part := firstn 2 (split_space s) in
        if Nat.leb 2 (List.length date_part)
        then PStr (join_space date_part)
        else date_str
    | _ => date_str
    end.

(** [signature[:50] + "..." if len(signature) > 50 else signature] *)
Definition truncate_signature (sig : pyval) : result pyval :=
  let* n := py_len sig in
  if Nat.ltb 50 n
  then let* head := py_prefix 50 sig in py_add_str head (lit "...")
  else Ok sig.

(** [Response(json.dumps(value, indent=2, ensure_ascii=False),
    mimetype="application/json", status=status)]: Flask encodes the text
    as UTF-8 when the response is built. *)
Definition respond (status : Z) (value : pyval) : result http_response :=
  if utf8_encodable value
  then Ok {| resp_status := status; resp_body := value |}
  else Raise OtherError.

(** The status that the client sees: the status of the response, or 500
    when an exception leaves the handler. *)
Definition http_status (r : result http_response) : Z :=
  match r with
  | Ok resp => resp_status resp
  | Raise _ => 500
  end.

Definition error_body (message : string) (code : Z) : pyval :=
  PDict [ (KEY_ERROR, PStr (lit message)); (KEY_STATUS_CODE, PInt code) ].

Definition exception_body : pyval :=
  PDict [ (KEY_EXCEPTION, PStr (lit "Internal server error"));
          (KEY_STATUS_CODE, PInt 500) ].

(** The two [except] clauses of [get_player_info], each with its [print];
    an exception raised by the [print] leaves the function. *)
Definition recover (w : World) (player_id server : pystr)
           (r : result player_info) : result player_info :=
  match r with
  | Ok info => Ok info
  | Raise RequestsTimeout =>
      let* _ := py_print w (TimeoutError player_id) in
      Ok (fallback_info TIMEOUT_TEXT server)
  | Raise OtherError =>
      let* _ := py_print w (PlayerInfoError player_id OtherError) in
      Ok (fallback_info ERROR_TEXT server)
  end.

(** The [except Exception] clause of [check]. *)
Definition route_except (w : World) (player_id : pystr)
           (r : result http_response) : result http_response :=
  match r with
  | Ok resp => Ok resp
  | Raise e =>
      let* _ := py_print w (RouteError player_id e) in
      Ok {| resp_status := 500; resp_body := exception_body |}
  end.

(** The [except Exception] clause of [get_full_info]. *)
Definition full_info_except (w : World) (uid : pystr)
           (r : result http_response) : result http_response :=
  match r with
  | Ok resp => Ok resp
  | Raise e =>
      let* _ := py_print w (FullInfoError uid e) in
      Ok {| resp_status := 500; resp_body := exception_body |}
  end.

Section App.

(** [str(v)] and [f"{v}"] for a float, a list or a dict: the text of
    Python's [repr], which the module never inspects. *)
Variable repr_other : pyval -> pystr.

(** [str(v)], also the text an f-string substitutes for [{v}]. *)
Definition py_str (v : pyval) : pystr :=
  match v with
  | PStr s => s
  | PInt z => PyStr.of_Z z
  | PBool true => lit "True"
  | PBool false => lit "False"
  | PNone => lit "None"
  | _ => repr_other v
  end.

(** Lines 42-95 of [get_player_info]: the record built from an answer
    200. *)
Definition parse_body (res : response) (server : pystr) : result player_info :=
  let* data := response_json res in
  let* account_info := py_get data (lit "AccountInfo") (PDict []) in
  let* nickname := py_get account_info (lit "AccountName") (PStr NOT_AVAILABLE) in
  let* region := py_get account_info (lit "AccountRegion") (PStr server) in
  let* level := py_get account_info (lit "AccountLevel") (PStr (lit "0")) in
  let* experience := py_get account_info (lit "AccountEXP") (PStr (lit "0")) in
  let* last_login_str := py_get account_info (lit "AccountLastLogin") (PStr []) in
  let* create_time_str := py_get account_info (lit "AccountCreateTime") (PStr []) in
  let* account_profile := py_get data (lit "AccountProfileInfo") (PDict []) in
  let* rank_point := py_get account_profile (lit "BrRankPoint") (PStr (lit "0")) in
  let* guild_info := py_get data (lit "GuildInfo") (PDict []) in
  let* guild_name := py_get guild_info (lit "GuildName") (PStr (lit "No Guild")) in
  let* social_info := py_get data (lit "SocialInfo") (PDict []) in
  let* signature := py_get social_info (lit "signature") (PStr []) in
  let last_login_readable := parse_date_string last_login_str in
  let create_time_readable := parse_date_string create_time_str in
  let* shown_signature := truncate_signature signature in
  Ok {| nickname := nickname;
        region := region;
        lastLoginAt := PStr (lit "0");
        lastLoginReadable := last_login_readable;
        createAt := PStr (lit "0");
        createAtReadable := create_time_readable;
        level := PStr (py_str level);
        experience := PStr (py_str experience);
        rank := PStr (lit "BR: " ++ py_str rank_point);
        guild := guild_name;
        signature := Some shown_signature |}.

(** Lines 27-95 of [get_player_info]: the body of the [try] once
    [requests.get] has returned. *)
Definition parse_response (w : World) (player_id : pystr)
           (res : response) (server : pystr) : result player_info :=
  if negb (Z.eqb (status_code res) 200)
  then
    let* _ := py_print w (InfoError player_id (status_code res)) in
    Ok (fallback_info FETCH_FAILED server)
  else parse_body res server.

Definition get_player_info (w : World) (player_id server : pystr)
  : M (result player_info) :=
  do got <- requests_get w (INFO_API ++ player_id);
  ret (recover w player_id server
         (let* res := got in parse_response w player_id res server)).

(** [get_player_info_cached], the wrapper that [lru_cache] builds; the key
    is the pair of positional arguments.  Nothing is stored when the
    function raises. *)
Definition get_player_info_cached (w : World) (player_id server : pystr)
  : M (result player_info) :=
  fun st =>
    let key := (player_id, server) in
    match lru_find cache_key_eq_dec key (st_cache st) with
    | Some info =>
        (Ok info,
         {| st_cache := lru_promote cache_key_eq_dec key info (st_cache st);
            st_calls := st_calls st |})
    | None =>
        let '(got, st1) := get_player_info w player_id server st in
        match got with
        | Ok info =>
            (Ok info,
             {| st_cache :=
                  lru_store cache_key_eq_dec CACHE_MAXSIZE key info
                    (st_cache st1);
                st_calls := st_calls st1 |})
        | Raise e => (Raise e, st1)
        end
    end.

(** The body of the [try] of [check_ban_status]. *)
Definition parse_ban (res : response) : result ban_info :=
  if Z.eqb (status_code res) 200
  then
    let* body := response_json res in
    let* data := py_get body (lit "data") (PDict []) in
    let* banned := py_get data (lit "is_banned") (PInt 0) in
    let* months := py_get data (lit "period") (PInt 0) in
    Ok {| is_banned := banned; period := months; success := true |}
  else Ok ban_failed.

(** [check_ban_status]: the bare [except] has no [print]. *)
Definition check_ban_status (w : World) (player_id : pystr) : M ban_info :=
  do got <- requests_get w (BAN_API ++ player_id);
  ret (match (let* res := got in parse_ban res) with
       | Ok info => info
       | Raise _ => ban_failed
       end).

(** Lines 163-187 of [check_banned_fast]: the result dict. *)
Definition aggregate (player_id : pystr) (info : player_info) (ban : ban_info)
  : pyval :=
  let banned := truthy (is_banned ban) in
  let result :=
    [ (KEY_STATUS,
       PStr (if success ban then lit "Account checked successfully"
             else lit "Partial data fetched"));
      (KEY_UID, PStr player_id);
      (KEY_NICKNAME, nickname info);
      (KEY_REGION, region info);
      (KEY_LEVEL, level info);
      (KEY_EXPERIENCE, experience info);
      (KEY_RANK, rank info);
      (KEY_GUILD, guild info);
      (KEY_LAST_LOGIN, lastLoginReadable info);
      (KEY_CREATED_AT, createAtReadable info);
      (KEY_ACCOUNT, PStr (if banned then BANNED else NOT_BANNED));
      (KEY_DURATION,
       PStr (if banned then py_str (period ban) ++ lit " month(s)"
             else lit "No ban"));
      (KEY_BANNED, PBool banned);
      (KEY_POWERED_BY, PStr (lit "@dev_eco"));
      (KEY_CHANNEL, PStr (lit "https://discord.gg/Mba5bNbdCP")) ] in
  match signature info with
  | Some sig =>
      if truthy sig then PDict (result ++ [(KEY_BIO, sig)]) else PDict result
  | None => PDict result
  end.

(** [check_banned_fast]: both tasks are submitted, here in the order of
    submission, and both have run when the executor is left; an exception
    of the account task is raised again by [result()]. *)
Definition check_banned_fast (w : World) (player_id server : pystr)
  : M (result pyval) :=
  do got <- get_player_info_cached w player_id server;
  do ban <- check_ban_status w player_id;
  ret (let* info := got in Ok (aggregate player_id info ban)).

(** The handler of [GET /check]. *)
Definition check (w : World) (args : query_args) : M (result http_response) :=
  let player_id := args_get (arg_uid args) [] in
  let server := args_get (arg_server args) (lit "BD") in
  if negb (truthy (PStr player_id))
  then ret (Ok {| resp_status := 400;
                  resp_body := error_body "Player ID (uid) is required!" 400 |})
  else if negb (PyStr.isdigit player_id)
  then ret (Ok {| resp_status := 400;
                  resp_body :=
                    error_body "Invalid UID format. Must be numeric!" 400 |})
  else
    do got <- check_banned_fast w player_id server;
    ret (route_except w player_id
           (let* result := got in respond 200 result)).

(** The handler of [GET /info/<uid>]. *)
Definition get_full_info (w : World) (uid : pystr) : M (result http_response) :=
  do got <- requests_get w (INFO_API ++ uid);
  ret (full_info_except w uid
         (let* res := got in
          if Z.eqb (status_code res) 200
          then
            let* data := response_json res in
            respond 200 data
          else
            Ok {| resp_status := status_code res;
                  resp_body :=
                    error_body "Failed to fetch account info"
                               (status_code res) |})).

(** A run of the process: the calls of [get_player_info_cached], one
    after the other, each in the world of its moment. *)
Fixpoint lookups (reqs : list (World * cache_key)) (st : State) : State :=
  match reqs with
  | [] => st
  | (w, (player_id, server)) :: rest =>
      lookups rest (snd (get_player_info_cached w player_id server st))
  end.

(** The pairs of a run whose lookup returned a record, in the order of
    the run. *)
Fixpoint served (reqs : list (World * cache_key)) (st : State)
  : list cache_key :=
  match reqs with
  | [] => []
  | (w, (player_id, server)) :: rest =>
      let out := get_player_info_cached w player_id server st in
      match fst out with
      | Ok _ => (player_id, server) :: served rest (snd out)
      | Raise _ => served rest (snd out)
      end
  end.

End App.

(** ** Vocabulary of the design document *)

(** The shape shared by the fallback records: the given nickname, zeroed
    timestamps, level and experience ["0"], rank ["Unknown"], guild
    ["None"]. *)
Definition fallback_shape (nick : pystr) (info : player_info) : Prop :=
  nickname info = PStr nick /\
  lastLoginAt info = PStr (lit "0") /\
  createAt info = PStr (lit "0") /\
  level info = PStr (lit "0") /\
  experience info = PStr (lit "0") /\
  rank info = PStr (lit "Unknown") /\
  guild info = PStr (lit "None").

(** The order of use of the keys of a history of accesses: each key once,
    the least recently accessed first. *)
Section Recency.

Variable K : Type.
Variable K_eq_dec : forall a b : K, {a = b} + {a <> b}.

Definition touch (k : K) (order : list K) : list K :=
  filter (fun x => if K_eq_dec k x then false else true) order ++ [k].

Definition recency (accesses : list K) : list K :=
  fold_left (fun order k => touch k order) accesses [].

End Recency.

(** The invariant of the bounded cache: it holds the most recent end of
    the order of use, all of it until [maxsize] keys have been seen. *)
Section Tracks.

Variables K V : Type.
Variable maxsize : nat.

Definition tracks (order : list K) (c : lru K V) : Prop :=
NoDup order /\
List.length c <= maxsize /\
exists older,
  order = older ++ lru_keys c /\ (older = [] \/ List.length c = maxsize).

End Tracks.

(** The last [n] elements of a list, all of it when it is shorter. *)
Definition lastn {A : Type} (n : nat) (l : list A) : list A :=
  skipn (List.length l - n) l.

(** [body[key]] for the body of a response, when it is a dict with that
    key. *)
Definition body_lookup (key : pystr) (body : pyval) : option pyval :=
  match body with
  | PDict d => dict_lookup key d
  | _ => None
  end.

(** The fields of the aggregated result that come from the account
    record. *)
Definition ACCOUNT_KEYS : list pystr :=
  [ KEY_NICKNAME; KEY_REGION; KEY_LEVEL; KEY_EXPERIENCE; KEY_RANK; KEY_GUILD;
    KEY_LAST_LOGIN; KEY_CREATED_AT; KEY_BIO ].

Definition account_fields (body : pyval) : list (option pyval) :=
  List.map (fun key => body_lookup key body) ACCOUNT_KEYS.

(** The same fields, read off an account record. *)
Definition info_fields (info : player_info) : list (option pyval) :=
  [ Some (nickname info); Some (region info); Some (level info);
    Some (experience info); Some (rank info); Some (guild info);
    Some (lastLoginReadable info); Some (createAtReadable info);
    match signature info with
    | Some sig => if truthy sig then Some sig else None
    | None => None
    end ].

(** The items of [data.get(name, {})] when that is a dict, as it is when
    the key is absent. *)
Definition section_items (data : list (pystr * pyval)) (name : string)
  : option (list (pystr * pyval)) :=
  match dict_get data (lit name) (PDict []) with
  | PDict items => Some items
  | _ => None
  end.

(** The record that [get_player_info] builds from an answer without any
    of the keys it reads. *)
Definition placeholder_info (server : pystr) : player_info :=
  {| nickname := PStr NOT_AVAILABLE;
     region := PStr server;
     lastLoginAt := PStr (lit "0");
     lastLoginReadable := PStr UNKNOWN;
     createAt := PStr (lit "0");
     createAtReadable := PStr UNKNOWN;
     level := PStr (lit "0");
     experience := PStr (lit "0");
     rank := PStr (lit "BR: 0");
     guild := PStr (lit "No Guild");
     signature := Some (PStr []) |}.

(** What is printed for the identifier: every diagnostic line that
    formats it is taken by the standard output. *)
Definition prints_for (w : World) (player_id : pystr) : Prop :=
  forall line, line_uid line = player_id -> stdout w line = true.

(** ** Sample inputs *)

(** A standard output in UTF-8: it takes a line unless the identifier in
    it holds a lone surrogate. *)
Definition utf8_stdout (line : log_line) : bool := utf8_text (line_uid line).

(** The world of a process with a UTF-8 standard output whose upstream
    services answer as given. *)
Definition answering (answers : pystr -> http_outcome) : World :=
  {| http := answers; stdout := utf8_stdout |}.

(** An identifier and a text with a lone surrogate, U+D800. *)
Definition SURROGATE : pystr := [55296%N].

(** Upstream services that answer every request with status 500. *)
Definition failing_world : World := answering (fun _ => Responded 500 None).

(** Upstream services whose answer is a text with a lone surrogate. *)
Definition surrogate_world : World :=
  answering (fun _ => Responded 200 (Some (PStr SURROGATE))).

(** A rendering of floats and containers for the examples, none of which
    formats one. *)
Definition sample_repr : pyval -> pystr := fun _ => lit "<object>".

(** An account with a name and a signature, as the account service sends
    it. *)
Definition sample_account (name sig : string) : list (pystr * pyval) :=
  [ (lit "AccountInfo",
     PDict [ (lit "AccountName", PStr (lit name));
             (lit "AccountLastLogin", PStr (lit "2025-02-10 20:27:51 BDT")) ]);
    (lit "SocialInfo", PDict [ (lit "signature", PStr (lit sig)) ]) ].

(** Upstream services that answer every request with that account. *)
Definition sample_world (name sig : string) : World :=
  answering (fun _ => Responded 200 (Some (PDict (sample_account name sig)))).

(** Upstream services that answer every request with an empty object. *)
Definition empty_world : World :=
  answering (fun _ => Responded 200 (Some (PDict []))).

(** Upstream services that report a ban of the given number of months. *)
Definition banned_world (months : Z) : World :=
  answering
    (fun _ =>
       Responded 200
         (Some (PDict [ (lit "data",
                         PDict [ (lit "is_banned", PInt 1);
                                 (lit "period", PInt months) ]) ]))).

(** 101 lookups of distinct identifiers while the network is down. *)
Definition sample_lookups : list (World * cache_key) :=
  List.map (fun i => (answering (fun _ => Failed),
                      (PyStr.of_Z (Z.of_nat i), lit "BD")))
           (seq 1 101).

Definition SIXTY : string :=
  "012345678901234567890123456789012345678901234567890123456789".

Definition FORTY : string := "0123456789012345678901234567890123456789".

(** The keys of the aggregated result, in the order of the dict literal
    of [check_banned_fast]. *)
Definition RESULT_KEYS : list pystr :=
  [ KEY_STATUS; KEY_UID; KEY_NICKNAME; KEY_REGION; KEY_LEVEL; KEY_EXPERIENCE;
    KEY_RANK; KEY_GUILD; KEY_LAST_LOGIN; KEY_CREATED_AT; KEY_ACCOUNT;
    KEY_DURATION; KEY_BANNED; KEY_POWERED_BY; KEY_CHANNEL ].

(** The four sections that [get_player_info] reads from the body of an
    answer, when the body is an object and each section is absent or an
    object. *)
Definition sections_of (body : option pyval)
  : option (list (pystr * pyval) * list (pystr * pyval) *
            list (pystr * pyval) * list (pystr * pyval)) :=
  match body with
  | Some (PDict d) =>
      match section_items d "AccountInfo",
            section_items d "AccountProfileInfo",
            section_items d "GuildInfo",
            section_items d "SocialInfo" with
      | Some account, Some profile, Some guild, Some social =>
          Some (account, profile, guild, social)
      | _, _, _, _ => None
      end
  | _ => None
  end.

(** The [AccountRegion] that the account service sent for the
    identifier: the entry of the account section of an answer 200, when
    there is one. *)
Definition upstream_region (w : World) (player_id : pystr) : option pyval :=
  match http w (INFO_API ++ player_id) with
  | Responded code (Some (PDict d)) =>
      if Z.eqb code 200
      then
        match section_items d "AccountInfo" with
        | Some account => dict_lookup (lit "AccountRegion") account
        | None => None
        end
      else None
  | _ => None
  end.

(** Two account records that agree on every field but the region. *)
Definition same_but_region (a b : player_info) : Prop :=
  nickname a = nickname b /\
  lastLoginAt a = lastLoginAt b /\
  lastLoginReadable a = lastLoginReadable b /\
  createAt a = createAt b /\
  createAtReadable a = createAtReadable b /\
  level a = level b /\
  experience a = experience b /\
  rank a = rank b /\
  guild a = guild b /\
  signature a = signature b.

(** A string without a space. *)
Definition spaceless (t : pystr) : bool :=
  forallb (fun c => negb (N.eqb c PyStr.space)) t.

(** Upstream services that time out. *)
Definition timeout_world : World := answering (fun _ => TimedOut).

(** Upstream services whose answer has a [null] where the account section
    should be. *)
Definition null_section_world : World :=
  answering
    (fun _ => Responded 200 (Some (PDict [ (lit "AccountInfo", PNone) ]))).

(** Upstream services whose answer has a [null] signature. *)
Definition null_signature_world : World :=
  answering
    (fun _ =>
       Responded 200
         (Some (PDict [ (lit "SocialInfo",
                         PDict [ (lit "signature", PNone) ]) ]))).

(** The pair of the [i]-th sample lookup. *)
Definition sample_key (i : nat) : cache_key :=
  (PyStr.of_Z (Z.of_nat i), lit "BD").

(** A standard output in ASCII, and a process with it whose upstream
    services time out. *)
Definition ascii_stdout (line : log_line) : bool :=
  forallb (fun c => N.ltb c 128) (line_uid line).

Definition ascii_timeout_world : World :=
  {| http := fun _ => TimedOut; stdout := ascii_stdout |}.

(** The identifier 123 in Arabic-Indic digits, U+0661 to U+0663. *)
Definition ARABIC_123 : pystr := [1633%N; 1634%N; 1635%N].

(** * Properties *)

(** ** Strings *)

Lemma ascii_digit_isdigit (c : N) :
  char_is_ascii_digit c = true -> char_isdigit c = true.
Proof.
  unfold char_is_ascii_digit, char_isdigit. intros H.
  cbn [existsb digit_ranges fst snd]. rewrite H. reflexivity.
Qed.

(** A non-empty string of the digits 0-9 passes [str.isdigit]. *)
Lemma ascii_digits_isdigit (s : pystr) :
  all_ascii_digits s = true -> PyStr.isdigit s = true.
Proof.
  unfold all_ascii_digits, PyStr.isdigit.
  destruct s as [|c r]; [discriminate|].
  intros H. rewrite forallb_forall in H |- *.
  intros x Hx. apply ascii_digit_isdigit, H, Hx.
Qed.

(** Below U+00B2 the only digits are the ASCII ones: every sign, point,
    letter and blank of ASCII fails [str.isdigit]. *)
Lemma isdigit_below_178 (c : N) :
  (c < 178)%N -> char_isdigit c = char_is_ascii_digit c.
Proof.
  intros H. unfold char_isdigit, char_is_ascii_digit.
  cbn [existsb digit_ranges fst snd].
  destruct (N.leb 48 c && N.leb c 57) eqn:E; [reflexivity|].
  cbn [orb].
  repeat match goal with
         | |- context [N.leb ?a c] =>
             replace (N.leb a c) with false by (symmetry; apply N.leb_gt; lia)
         end.
  reflexivity.
Qed.

(** ** The bounded cache *)

Section LruTheory.

Variables K V : Type.
Variable K_eq_dec : forall a b : K, {a = b} + {a <> b}.
Variable maxsize : nat.
Hypothesis maxsize_pos : 0 < maxsize.

Local Abbreviation other k :=
  (fun x : K => if K_eq_dec k x then false else true).

Lemma lru_find_none (k : K) (c : lru K V) :
  lru_find K_eq_dec k c = None <-> ~ In k (lru_keys c).
Proof.
  induction c as [|[k' v] c IH]; cbn.
  - tauto.
  - destruct (K_eq_dec k k') as [->|N].
    + split; [discriminate|]. intros H. exfalso. apply H. now left.
    + rewrite IH. split.
      * intros H [E|I]; [congruence|tauto].
      * tauto.
Qed.

Lemma lru_find_some (k : K) (v : V) (c : lru K V) :
  lru_find K_eq_dec k c = Some v -> In k (lru_keys c).
Proof.
  intros H. destruct (in_dec K_eq_dec k (lru_keys c)) as [I|N]; [exact I|].
  apply lru_find_none in N. congruence.
Qed.

Lemma lru_keys_app (c d : lru K V) :
  lru_keys (c ++ d) = lru_keys c ++ lru_keys d.
Proof. apply map_app. Qed.

Lemma lru_keys_remove (k : K) (c : lru K V) :
  lru_keys (lru_remove K_eq_dec k c) = filter (other k) (lru_keys c).
Proof.
  induction c as [|[k' v] c IH]; [reflexivity|].
  unfold lru_remove, lru_keys in *. cbn [filter map fst].
  destruct (K_eq_dec k k'); cbn [map fst]; [exact IH|f_equal; exact IH].
Qed.

Lemma filter_other_absent (k : K) (l : list K) :
  ~ In k l -> filter (other k) l = l.
Proof.
  induction l as [|a l IH]; cbn; [reflexivity|]. intros H.
  destruct (K_eq_dec k a) as [->|N]; [exfalso; apply H; now left|].
  rewrite IH; [reflexivity|]. tauto.
Qed.

Lemma filter_other_length (k : K) (l : list K) :
  NoDup l -> In k l -> S (List.length (filter (other k) l)) = List.length l.
Proof.
  induction 1 as [|a l Ha Hl IH]; cbn; [tauto|]. intros [->|I].
  - destruct (K_eq_dec k k); [|congruence].
    now rewrite filter_other_absent.
  - destruct (K_eq_dec k a) as [->|N]; [tauto|]. cbn. now rewrite IH.
Qed.

Lemma filter_other_not_in (k : K) (l : list K) : ~ In k (filter (other k) l).
Proof.
  rewrite filter_In. intros [_ H]. destruct (K_eq_dec k k); congruence.
Qed.

Lemma touch_NoDup (k : K) (order : list K) :
  NoDup order -> NoDup (touch K_eq_dec k order).
Proof.
  intros H. unfold touch. apply NoDup_app.
  - now apply NoDup_filter.
  - constructor; [tauto|constructor].
  - intros a Ha [<-|[]]. now apply filter_other_not_in in Ha.
Qed.

Lemma tracks_lastn (order : list K) (c : lru K V) :
  tracks maxsize order c -> lru_keys c = lastn maxsize order.
Proof.
  intros (_ & Hlen & older & -> & Hfull). unfold lastn.
  assert (L : List.length (lru_keys c) = List.length c) by apply length_map.
  destruct Hfull as [->|Hfull]; cbn [app].
  - replace (List.length (lru_keys c) - maxsize) with 0 by lia. reflexivity.
  - rewrite length_app, L, Hfull.
    replace (List.length older + maxsize - maxsize) with (List.length older) by lia.
    rewrite skipn_app, skipn_all, Nat.sub_diag. reflexivity.
Qed.

Lemma tracks_promote (order : list K) (c : lru K V) (k : K) (v : V) :
  tracks maxsize order c -> In k (lru_keys c) ->
  tracks maxsize (touch K_eq_dec k order) (lru_promote K_eq_dec k v c).
Proof.
  intros (Hnd & Hlen & older & -> & Hfull) Hin.
  assert (L : List.length (lru_keys c) = List.length c) by apply length_map.
  assert (Hk : NoDup (lru_keys c)) by (eapply NoDup_app_remove_l; eauto).
  assert (Hsz : List.length (lru_promote K_eq_dec k v c) = List.length c).
  { unfold lru_promote. rewrite length_app. cbn.
    rewrite <- (length_map fst (lru_remove K_eq_dec k c)).
    change (map fst (lru_remove K_eq_dec k c))
      with (lru_keys (lru_remove K_eq_dec k c)).
    rewrite lru_keys_remove.
    pose proof (@filter_other_length k (lru_keys c) Hk Hin). lia. }
  split; [now apply touch_NoDup|]. split; [lia|].
  exists older. split.
  - unfold touch, lru_promote.
    rewrite filter_app, lru_keys_app, lru_keys_remove, <- app_assoc.
    f_equal. apply filter_other_absent. intros Hold.
    revert Hnd. clear - Hold Hin. induction older as [|a o IH]; cbn.
    + destruct Hold.
    + intros H. inversion H as [|? ? Ha Ho]; subst. destruct Hold as [->|I].
      * apply Ha. apply in_or_app. now right.
      * now apply IH.
  - rewrite Hsz. exact Hfull.
Qed.

Lemma tracks_store (order : list K) (c : lru K V) (k : K) (v : V) :
  tracks maxsize order c -> ~ In k (lru_keys c) ->
  tracks maxsize (touch K_eq_dec k order) (lru_store K_eq_dec maxsize k v c).
Proof.
  intros (Hnd & Hlen & older & -> & Hfull) Hout.
  split; [now apply touch_NoDup|].
  unfold lru_store. rewrite (proj2 (lru_find_none k c) Hout).
  unfold touch. rewrite filter_app, (@filter_other_absent k (lru_keys c) Hout).
  destruct (Nat.leb maxsize (List.length c)) eqn:E.
  - apply Nat.leb_le in E. destruct c as [|[k0 v0] c]; [cbn in E; lia|].
    cbn [tl List.length] in *. split.
    { rewrite length_app. cbn. lia. }
    exists (filter (other k) older ++ [k0]). split.
    + rewrite lru_keys_app. cbn. now rewrite <- !app_assoc.
    + right. rewrite length_app. cbn. lia.
  - apply Nat.leb_gt in E. split.
    { rewrite length_app. cbn. lia. }
    destruct Hfull as [->|Hfull]; [|lia].
    exists []. split; [|now left].
    cbn. now rewrite lru_keys_app.
Qed.

(** One use of the wrapper, whatever the function returns on a miss. *)
Lemma tracks_step (order : list K) (c : lru K V) (k : K) (fresh : V) :
  tracks maxsize order c ->
  tracks maxsize (touch K_eq_dec k order)
    (match lru_find K_eq_dec k c with
     | Some v => lru_promote K_eq_dec k v c
     | None => lru_store K_eq_dec maxsize k fresh c
     end).
Proof.
  intros H. destruct (lru_find K_eq_dec k c) as [v|] eqn:E.
  - apply tracks_promote; [exact H|]. eapply lru_find_some; eauto.
  - apply tracks_store; [exact H|]. now apply lru_find_none.
Qed.

Lemma tracks_empty : @tracks K V maxsize [] [].
Proof.
  split; [constructor|]. split; [apply Nat.le_0_l|]. exists []. split; auto.
Qed.

Lemma recency_distinct (accesses : list K) :
  NoDup accesses -> recency K_eq_dec accesses = accesses.
Proof.
  unfold recency.
  assert (G : forall order, NoDup (order ++ accesses) ->
              fold_left (fun o k => touch K_eq_dec k o) accesses order
              = order ++ accesses).
  { induction accesses as [|k ks IH]; cbn; intros order H.
    - now rewrite app_nil_r.
    - unfold touch at 2. rewrite filter_other_absent.
      + rewrite IH; rewrite <- app_assoc; [reflexivity|exact H].
      + apply NoDup_remove_2 in H. intros I. apply H. apply in_or_app. now left. }
  intros H. apply (G []). exact H.
Qed.

Lemma lru_find_app (k : K) (c d : lru K V) :
  lru_find K_eq_dec k (c ++ d) =
  match lru_find K_eq_dec k c with
  | Some v => Some v
  | None => lru_find K_eq_dec k d
  end.
Proof.
  induction c as [|[k' v] c IH]; cbn; [reflexivity|].
  destruct (K_eq_dec k k'); [reflexivity|exact IH].
Qed.

Lemma lru_find_promote (k : K) (v : V) (c : lru K V) :
  lru_find K_eq_dec k (lru_promote K_eq_dec k v c) = Some v.
Proof.
  unfold lru_promote. rewrite lru_find_app.
  replace (lru_find K_eq_dec k (lru_remove K_eq_dec k c)) with (@None V).
  - cbn. destruct (K_eq_dec k k); congruence.
  - symmetry. apply lru_find_none. rewrite lru_keys_remove.
    apply filter_other_not_in.
Qed.

Lemma lru_find_store (k : K) (v : V) (c : lru K V) :
  lru_find K_eq_dec k c = None ->
  lru_find K_eq_dec k (lru_store K_eq_dec maxsize k v c) = Some v.
Proof.
  intros H. unfold lru_store. rewrite H.
  assert (T : lru_find K_eq_dec k (List.tl c) = None).
  { destruct c as [|[k' v'] c]; [reflexivity|]. cbn in H |- *.
    destruct (K_eq_dec k k'); [discriminate|exact H]. }
  destruct (Nat.leb maxsize (List.length c)); rewrite lru_find_app.
  - rewrite T. cbn. destruct (K_eq_dec k k); congruence.
  - rewrite H. cbn. destruct (K_eq_dec k k); congruence.
Qed.

End LruTheory.

Section Properties.

Variable repr : pyval -> pystr.

(** ** Unfolding the state-passing functions *)

Lemma get_player_info_eq (w : World) (player_id server : pystr) (st : State) :
  get_player_info repr w player_id server st =
  (recover w player_id server
     (match http w (INFO_API ++ player_id) with
      | Responded code body =>
          parse_response repr w player_id
            {| status_code := code; body_json := body |} server
      | TimedOut => Raise RequestsTimeout
      | Failed => Raise OtherError
      end),
   {| st_cache := st_cache st;
      st_calls := st_calls st ++ [INFO_API ++ player_id] |}).
Proof.
  unfold get_player_info, bind, ret, requests_get.
  destruct (http w (INFO_API ++ player_id)); reflexivity.
Qed.

Lemma cached_hit (w : World) (player_id server : pystr) (st : State)
      (info : player_info) :
  lru_find cache_key_eq_dec (player_id, server) (st_cache st) = Some info ->
  get_player_info_cached repr w player_id server st =
  (Ok info,
   {| st_cache :=
        lru_promote cache_key_eq_dec (player_id, server) info (st_cache st);
      st_calls := st_calls st |}).
Proof. intros H. unfold get_player_info_cached. rewrite H. reflexivity. Qed.

Lemma cached_miss (w : World) (player_id server : pystr) (st : State) :
  lru_find cache_key_eq_dec (player_id, server) (st_cache st) = None ->
  get_player_info_cached repr w player_id server st =
  (fst (get_player_info repr w player_id server st),
   {| st_cache :=
        match fst (get_player_info repr w player_id server st) with
        | Ok info =>
            lru_store cache_key_eq_dec CACHE_MAXSIZE (player_id, server)
              info (st_cache st)
        | Raise _ => st_cache st
        end;
      st_calls := st_calls st ++ [INFO_API ++ player_id] |}).
Proof.
  intros H. unfold get_player_info_cached. rewrite H.
  rewrite get_player_info_eq. cbn [fst].
  destruct (recover w player_id server _); reflexivity.
Qed.

Lemma check_banned_fast_eq (w : World) (player_id server : pystr) (st : State) :
  check_banned_fast repr w player_id server st =
  let cached := get_player_info_cached repr w player_id server st in
  (match fst cached with
   | Ok info =>
       Ok (aggregate repr player_id info
             (fst (check_ban_status w player_id st)))
   | Raise e => Raise e
   end,
   {| st_cache := st_cache (snd cached);
      st_calls := st_calls (snd cached) ++ [BAN_API ++ player_id] |}).
Proof.
  unfold check_banned_fast, bind, ret. cbv zeta.
  destruct (get_player_info_cached repr w player_id server st) as [got st1].
  cbn [fst snd]. destruct got; reflexivity.
Qed.

(** ** Validation of [uid] *)

(** What the validation of [check] does reject: an absent or empty
    [uid], and a [uid] that fails [str.isdigit].  The state is left as it
    was, so that nothing was fetched. *)
Lemma check_rejects_invalid_uid (w : World) (args : query_args) (st : State) :
  PyStr.isdigit (args_get (arg_uid args) []) = false ->
  check repr w args st =
  (Ok {| resp_status := 400;
         resp_body :=
           match args_get (arg_uid args) [] with
           | [] => error_body "Player ID (uid) is required!" 400
           | _ => error_body "Invalid UID format. Must be numeric!" 400
           end |},
   st).
Proof.
  intros H. unfold check.
  destruct (args_get (arg_uid args) []) as [|c s] eqn:E.
  - reflexivity.
  - cbn [truthy List.length Nat.eqb negb]. rewrite H. reflexivity.
Qed.

Lemma error_bodies_differ :
  error_body "Player ID (uid) is required!" 400 <>
  error_body "Invalid UID format. Must be numeric!" 400.
Proof. discriminate. Qed.

(** A [uid] with an ASCII character that is not one of 0-9 fails
    [str.isdigit]. *)
Lemma ascii_non_digit_fails (uid : pystr) (c : N) :
  In c uid -> (c < 128)%N -> char_is_ascii_digit c = false ->
  PyStr.isdigit uid = false.
Proof.
  intros Hin Hc Hd. unfold PyStr.isdigit.
  destruct uid as [|a r]; [reflexivity|].
  apply not_true_is_false. intros Hall.
  rewrite forallb_forall in Hall. specialize (Hall c Hin).
  rewrite isdigit_below_178 in Hall by lia. congruence.
Qed.

(** A [uid] that passes [str.isdigit] reaches the aggregator; the answer
    is the result with status 200 when it can be built, and otherwise what
    the [except] clause of the handler makes of the exception. *)
Lemma check_valid_uid (w : World) (args : query_args) (st : State) :
  PyStr.isdigit (args_get (arg_uid args) []) = true ->
  check repr w args st =
  let player_id := args_get (arg_uid args) [] in
  let run :=
    check_banned_fast repr w player_id
      (args_get (arg_server args) (lit "BD")) st in
  (route_except w player_id (let* result := fst run in respond 200 result),
   snd run).
Proof.
  intros H. unfold check. rewrite H.
  destruct (args_get (arg_uid args) []) as [|c s] eqn:E; [discriminate|].
  cbn [truthy List.length Nat.eqb negb]. cbv zeta. unfold bind, ret.
  destruct (check_banned_fast repr w (c :: s)
              (args_get (arg_server args) (lit "BD")) st).
  reflexivity.
Qed.

(** An exception that [check] handles or lets through is answered 500. *)
Lemma route_except_status (w : World) (player_id : pystr)
      (r : result http_response) :
  http_status (route_except w player_id r) =
  match r with
  | Ok resp => resp_status resp
  | Raise _ => 500%Z
  end.
Proof.
  destruct r as [resp|e]; [reflexivity|].
  unfold route_except, py_print.
  destruct (stdout w (RouteError player_id e)); reflexivity.
Qed.

(** C1, at the input that the validation lets through: the one-character
    [uid] U+00B2 (superscript two) is not a string of decimal digits, yet
    [check] does not answer 400 (it answers 200, or 500 when the lookup or
    the building of the response raises) and the ban service has been
    queried with it. *)
Theorem check_accepts_superscript_two
        (w : World) (server : option pystr) (st : State) :
  let args := {| arg_uid := Some [178%N]; arg_server := server |} in
  all_ascii_digits [178%N] = false /\
  http_status (fst (check repr w args st)) <> 400%Z /\
  (http_status (fst (check repr w args st)) = 200%Z \/
   http_status (fst (check repr w args st)) = 500%Z) /\
  In (BAN_API ++ [178%N]) (st_calls (snd (check repr w args st))).
Proof.
  cbv zeta. split; [reflexivity|].
  rewrite (@check_valid_uid w
             {| arg_uid := Some [178%N]; arg_server := server |} st eq_refl).
  cbv zeta. cbn [arg_uid arg_server args_get fst snd].
  rewrite route_except_status.
  assert (S : match (let* result :=
                       fst (check_banned_fast repr w [178%N]
                              (args_get server (lit "BD")) st)
                     in respond 200 result) with
              | Ok resp => resp_status resp
              | Raise _ => 500%Z
              end = 200%Z \/
              match (let* result :=
                       fst (check_banned_fast repr w [178%N]
                              (args_get server (lit "BD")) st)
                     in respond 200 result) with
              | Ok resp => resp_status resp
              | Raise _ => 500%Z
              end = 500%Z).
  { destruct (fst (check_banned_fast repr w [178%N]
                     (args_get server (lit "BD")) st)) as [result|e];
      cbn [rbind]; [|now right].
    unfold respond. destruct (utf8_encodable result); [now left|now right]. }
  split; [destruct S as [S|S]; rewrite S; discriminate|].
  split; [exact S|].
  rewrite check_banned_fast_eq. cbv zeta. cbn [snd st_calls].
  apply in_or_app. right. left. reflexivity.
Qed.

(** ** The fallbacks of [get_player_info] *)

Lemma rbind_not_timeout {A B : Type} (r : result A) (k : A -> result B) :
  r <> Raise RequestsTimeout -> (forall a, k a <> Raise RequestsTimeout) ->
  rbind r k <> Raise RequestsTimeout.
Proof.
  intros Hr Hk. destruct r as [a|e]; cbn; [apply Hk|].
  intros E. apply Hr. inversion E. reflexivity.
Qed.

Lemma py_get_not_timeout (o : pyval) (key : pystr) (default : pyval) :
  py_get o key default <> Raise RequestsTimeout.
Proof. destruct o; discriminate. Qed.

Lemma truncate_signature_not_timeout (sig : pyval) :
  truncate_signature sig <> Raise RequestsTimeout.
Proof.
  unfold truncate_signature. apply rbind_not_timeout.
  - destruct sig; discriminate.
  - intros n. destruct (Nat.ltb 50 n); [|discriminate].
    apply rbind_not_timeout.
    + destruct sig; discriminate.
    + intros head. destruct head; discriminate.
Qed.

(** Once [requests.get] has returned, no [requests.Timeout] is raised. *)
Lemma parse_body_not_timeout (res : response) (server : pystr) :
  parse_body repr res server <> Raise RequestsTimeout.
Proof.
  unfold parse_body.
  apply rbind_not_timeout.
  { unfold response_json. destruct (body_json res); discriminate. }
  intros data.
  repeat (apply rbind_not_timeout; [apply py_get_not_timeout|intros ?]).
  apply rbind_not_timeout; [apply truncate_signature_not_timeout|].
  discriminate.
Qed.

(** What [get_player_info] returns when its diagnostic lines are
    printed. *)
Lemma get_player_info_printed
      (w : World) (player_id server : pystr) (st : State) :
  prints_for w player_id ->
  fst (get_player_info repr w player_id server st) =
  match http w (INFO_API ++ player_id) with
  | Responded code body =>
      if Z.eqb code 200
      then
        match parse_body repr
                {| status_code := code; body_json := body |} server with
        | Ok parsed => Ok parsed
        | Raise _ => Ok (fallback_info ERROR_TEXT server)
        end
      else Ok (fallback_info FETCH_FAILED server)
  | TimedOut => Ok (fallback_info TIMEOUT_TEXT server)
  | Failed => Ok (fallback_info ERROR_TEXT server)
  end.
Proof.
  intros P. rewrite get_player_info_eq. cbn [fst].
  assert (P1 : forall code, stdout w (InfoError player_id code) = true)
    by (intros; apply P; reflexivity).
  assert (P2 : stdout w (TimeoutError player_id) = true)
    by (apply P; reflexivity).
  assert (P3 : forall e, stdout w (PlayerInfoError player_id e) = true)
    by (intros; apply P; reflexivity).
  destruct (http w (INFO_API ++ player_id)) as [code body| |].
  - unfold parse_response. cbn [status_code].
    destruct (Z.eqb code 200) eqn:E; cbn [negb].
    + pose proof (parse_body_not_timeout
                    {| status_code := code; body_json := body |} server) as NT.
      destruct (parse_body repr
                  {| status_code := code; body_json := body |} server)
        as [parsed|[|]]; cbn [recover]; [reflexivity|congruence|].
      unfold py_print. rewrite P3. reflexivity.
    + unfold py_print. rewrite P1. reflexivity.
  - cbn [recover]. unfold py_print. rewrite P2. reflexivity.
  - cbn [recover]. unfold py_print. rewrite P3. reflexivity.
Qed.

(** C2, as the code has it: for an identifier whose diagnostic lines are
    printed, [get_player_info] does not raise.  An answer with a status
    other than 200 gives the fallback with nickname U+274C, a space and
    "Fetch failed", a timeout the one with "Timeout" after the same prefix,
    any other exception (raised by [requests.get] or while the answer is
    decoded) the one with "Error"; the three share the shape of
    [fallback_shape]. *)
Theorem get_player_info_fallbacks
        (w : World) (player_id server : pystr) (st : State) :
  prints_for w player_id ->
  (forall nick, fallback_shape nick (fallback_info nick server)) /\
  fst (get_player_info repr w player_id server st) =
  match http w (INFO_API ++ player_id) with
  | Responded code body =>
      if Z.eqb code 200
      then
        match parse_body repr
                {| status_code := code; body_json := body |} server with
        | Ok parsed => Ok parsed
        | Raise _ => Ok (fallback_info (marked [CROSS_MARK] "Error") server)
        end
      else Ok (fallback_info (marked [CROSS_MARK] "Fetch failed") server)
  | TimedOut => Ok (fallback_info (marked [CROSS_MARK] "Timeout") server)
  | Failed => Ok (fallback_info (marked [CROSS_MARK] "Error") server)
  end.
Proof.
  intros P. split.
  { intros nick. repeat split. }
  exact (@get_player_info_printed w player_id server st P).
Qed.

(** ** The cache of [get_player_info_cached] *)

Lemma cached_value (w : World) (player_id server : pystr) (st : State) :
  fst (get_player_info_cached repr w player_id server st) =
  match lru_find cache_key_eq_dec (player_id, server) (st_cache st) with
  | Some info => Ok info
  | None => fst (get_player_info repr w player_id server st)
  end.
Proof.
  destruct (lru_find cache_key_eq_dec (player_id, server) (st_cache st))
    as [info|] eqn:E.
  - rewrite (@cached_hit w _ _ _ _ E). reflexivity.
  - rewrite (@cached_miss w _ _ _ E). reflexivity.
Qed.

Lemma cached_cache (w : World) (player_id server : pystr) (st : State) :
  st_cache (snd (get_player_info_cached repr w player_id server st)) =
  match fst (get_player_info_cached repr w player_id server st) with
  | Ok fresh =>
      match lru_find cache_key_eq_dec (player_id, server) (st_cache st) with
      | Some info =>
          lru_promote cache_key_eq_dec (player_id, server) info (st_cache st)
      | None =>
          lru_store cache_key_eq_dec CACHE_MAXSIZE (player_id, server)
            fresh (st_cache st)
      end
  | Raise _ => st_cache st
  end.
Proof.
  destruct (lru_find cache_key_eq_dec (player_id, server) (st_cache st))
    as [info|] eqn:E.
  - rewrite (@cached_hit w _ _ _ _ E). reflexivity.
  - rewrite (@cached_miss w _ _ _ E). cbn [fst snd st_cache].
    destruct (fst (get_player_info repr w player_id server st)); reflexivity.
Qed.

Lemma lookups_tracks (reqs : list (World * cache_key)) :
  forall (st : State) (order : list cache_key),
    tracks CACHE_MAXSIZE order (st_cache st) ->
    tracks CACHE_MAXSIZE
      (fold_left (fun o k => touch cache_key_eq_dec k o)
         (served repr reqs st) order)
      (st_cache (lookups repr reqs st)).
Proof.
  induction reqs as [|[w [player_id server]] reqs IH]; intros st order H.
  - exact H.
  - cbn [lookups served]. cbv zeta.
    pose proof (cached_cache w player_id server st) as C.
    destruct (fst (get_player_info_cached repr w player_id server st))
      as [fresh|e].
    + cbn [fold_left]. apply IH. rewrite C.
      apply tracks_step; [unfold CACHE_MAXSIZE; lia|exact H].
    + apply IH. rewrite C. exact H.
Qed.

(** C3: the cache is keyed by the pair (identifier, region).  After any
    sequence of lookups from the empty cache it holds at most 100
    entries, namely the 100 most recently accessed of the pairs whose
    lookup returned a record, so that the pair dropped by a lookup on a
    full cache is the least recently accessed one.  After the lookup of
    101 distinct pairs the first pair, and only it, is gone, and 100
    entries remain. *)
Theorem cache_bounded_lru (reqs : list (World * cache_key)) :
  let keys := served repr reqs initial_state in
  let resident := lru_keys (st_cache (lookups repr reqs initial_state)) in
  List.length resident <= 100 /\
  resident = lastn 100 (recency cache_key_eq_dec keys) /\
  (NoDup keys -> List.length keys = 101 ->
   exists first,
     keys = first :: resident /\ ~ In first resident /\
     List.length resident = 100).
Proof.
  cbv zeta.
  pose proof (@lookups_tracks reqs initial_state [] (@tracks_empty _ _ _)) as T.
  fold (recency cache_key_eq_dec (served repr reqs initial_state)) in T.
  assert (P : 0 < CACHE_MAXSIZE) by (unfold CACHE_MAXSIZE; lia).
  pose proof (tracks_lastn P T) as E. unfold CACHE_MAXSIZE in T, E.
  split; [|split].
  - destruct T as (_ & L & _). unfold lru_keys. rewrite length_map. exact L.
  - exact E.
  - intros Hnd Hlen. rewrite E, (recency_distinct cache_key_eq_dec Hnd).
    destruct (served repr reqs initial_state) as [|first rest];
      [discriminate|].
    cbn in Hlen. exists first.
    assert (R : lastn 100 (first :: rest) = rest).
    { unfold lastn. cbn [List.length].
      replace (S (List.length rest) - 100) with 1 by lia. reflexivity. }
    rewrite R. split; [reflexivity|]. split; [|lia].
    now inversion Hnd.
Qed.

(** ** Cache hits *)

(** The account fields of the aggregated result are those of the account
    record, whatever the ban record is. *)
Lemma account_fields_aggregate
      (player_id : pystr) (info : player_info) (ban : ban_info) :
  account_fields (aggregate repr player_id info ban) = info_fields info.
Proof.
  unfold aggregate, info_fields.
  destruct (signature info) as [sig|]; [destruct (truthy sig)|]; reflexivity.
Qed.

(** Right after a call that returned a record the pair is resident, with
    that record. *)
Lemma cached_then_resident
      (w : World) (player_id server : pystr) (st : State) (info : player_info) :
  fst (get_player_info_cached repr w player_id server st) = Ok info ->
  lru_find cache_key_eq_dec (player_id, server)
    (st_cache (snd (get_player_info_cached repr w player_id server st))) =
  Some info.
Proof.
  intros H. rewrite cached_cache, H. rewrite cached_value in H.
  destruct (lru_find cache_key_eq_dec (player_id, server) (st_cache st))
    as [stored|] eqn:E.
  - injection H as ->. apply lru_find_promote.
  - now apply lru_find_store.
Qed.

(** A lookup of a resident pair shows the stored record and fetches the
    ban status only. *)
Lemma check_banned_fast_hit
      (w : World) (player_id server : pystr) (st : State) (info : player_info) :
  lru_find cache_key_eq_dec (player_id, server) (st_cache st) = Some info ->
  fst (check_banned_fast repr w player_id server st) =
  Ok (aggregate repr player_id info (fst (check_ban_status w player_id st))) /\
  st_calls (snd (check_banned_fast repr w player_id server st)) =
  st_calls st ++ [BAN_API ++ player_id].
Proof.
  intros H. rewrite check_banned_fast_eq. cbv zeta.
  rewrite (@cached_hit w _ _ _ _ H). cbn [fst snd st_calls].
  split; reflexivity.
Qed.

(** A request to [/check] that is answered 200 carries the result of a
    lookup that returned. *)
Lemma check_answered_200
      (w : World) (args : query_args) (st : State) (r : http_response) :
  PyStr.isdigit (args_get (arg_uid args) []) = true ->
  fst (check repr w args st) = Ok r ->
  resp_status r = 200%Z ->
  fst (check_banned_fast repr w (args_get (arg_uid args) [])
         (args_get (arg_server args) (lit "BD")) st) = Ok (resp_body r).
Proof.
  intros Hd Hr Hs. rewrite (@check_valid_uid w args st Hd) in Hr.
  cbv zeta in Hr. cbn [fst] in Hr.
  destruct (fst (check_banned_fast repr w (args_get (arg_uid args) [])
                   (args_get (arg_server args) (lit "BD")) st))
    as [result|e]; cbn [rbind] in Hr.
  - unfold respond in Hr. destruct (utf8_encodable result).
    + cbn [route_except] in Hr. injection Hr as <-. reflexivity.
    + cbn [route_except] in Hr. unfold py_print in Hr.
      destruct (stdout w _); cbn [rbind] in Hr; [|discriminate Hr].
      injection Hr as <-. discriminate Hs.
  - cbn [route_except] in Hr. unfold py_print in Hr.
    destruct (stdout w _); cbn [rbind] in Hr; [|discriminate Hr].
    injection Hr as <-. discriminate Hs.
Qed.

(** C4: two consecutive requests to [/check] with the same valid
    identifier and region, in any two worlds.  Each is answered with the
    result of its lookup, status 200, unless the lookup raises or the
    result cannot be encoded.  When the first lookup returns, the pair is
    resident and the second lookup fetches nothing but the ban status and
    returns a result with the account fields of the first, whatever the
    account service would answer by then; the first shows the record
    already stored for the pair, or else the record that
    [get_player_info] built when the pair was inserted.  When the first
    lookup raises, the pair is not resident afterwards.  Hence two answers
    200 carry the same account fields. *)
Theorem cache_hit_idempotent
        (w1 w2 : World) (args : query_args) (st : State) :
  let player_id := args_get (arg_uid args) [] in
  let server := args_get (arg_server args) (lit "BD") in
  let first := check repr w1 args st in
  let second := check repr w2 args (snd first) in
  let lookup1 := check_banned_fast repr w1 player_id server st in
  let lookup2 := check_banned_fast repr w2 player_id server (snd first) in
  PyStr.isdigit player_id = true ->
  fst first =
  route_except w1 player_id (let* result := fst lookup1 in respond 200 result) /\
  fst second =
  route_except w2 player_id (let* result := fst lookup2 in respond 200 result) /\
  match fst lookup1 with
  | Ok result1 =>
      st_calls (snd second) = st_calls (snd first) ++ [BAN_API ++ player_id] /\
      (exists result2,
         fst lookup2 = Ok result2 /\
         account_fields result2 = account_fields result1) /\
      match lru_find cache_key_eq_dec (player_id, server) (st_cache st) with
      | Some stored => account_fields result1 = info_fields stored
      | None =>
          exists fresh,
            fst (get_player_info repr w1 player_id server st) = Ok fresh /\
            account_fields result1 = info_fields fresh
      end
  | Raise _ =>
      lru_find cache_key_eq_dec (player_id, server) (st_cache (snd first)) =
      None
  end /\
  (forall r1 r2 : http_response,
     fst first = Ok r1 -> resp_status r1 = 200%Z ->
     fst second = Ok r2 -> resp_status r2 = 200%Z ->
     account_fields (resp_body r2) = account_fields (resp_body r1)).
Proof.
  cbv zeta. intros Hdigit.
  assert (Hstate :
    snd (check repr w1 args st) =
    snd (check_banned_fast repr w1 (args_get (arg_uid args) [])
           (args_get (arg_server args) (lit "BD")) st)).
  { rewrite (@check_valid_uid _ args _ Hdigit). reflexivity. }
  assert (Hcore :
    match fst (check_banned_fast repr w1 (args_get (arg_uid args) [])
                 (args_get (arg_server args) (lit "BD")) st) with
    | Ok result1 =>
        st_calls (snd (check repr w2 args (snd (check repr w1 args st)))) =
        st_calls (snd (check repr w1 args st)) ++
        [BAN_API ++ args_get (arg_uid args) []] /\
        (exists result2,
           fst (check_banned_fast repr w2 (args_get (arg_uid args) [])
                  (args_get (arg_server args) (lit "BD"))
                  (snd (check repr w1 args st))) = Ok result2 /\
           account_fields result2 = account_fields result1) /\
        match lru_find cache_key_eq_dec
                (args_get (arg_uid args) [],
                 args_get (arg_server args) (lit "BD")) (st_cache st) with
        | Some stored => account_fields result1 = info_fields stored
        | None =>
            exists fresh,
              fst (get_player_info repr w1 (args_get (arg_uid args) [])
                     (args_get (arg_server args) (lit "BD")) st) = Ok fresh /\
              account_fields result1 = info_fields fresh
        end
    | Raise _ =>
        lru_find cache_key_eq_dec
          (args_get (arg_uid args) [], args_get (arg_server args) (lit "BD"))
          (st_cache (snd (check repr w1 args st))) = None
    end).
  { rewrite (@check_valid_uid w2 args _ Hdigit). cbv zeta. cbn [snd].
    rewrite Hstate.
    set (player_id := args_get (arg_uid args) []) in *.
    set (server := args_get (arg_server args) (lit "BD")) in *.
    assert (Hcache :
      st_cache (snd (check_banned_fast repr w1 player_id server st)) =
      st_cache (snd (get_player_info_cached repr w1 player_id server st))).
    { rewrite check_banned_fast_eq. reflexivity. }
    assert (Hvalue :
      fst (check_banned_fast repr w1 player_id server st) =
      match fst (get_player_info_cached repr w1 player_id server st) with
      | Ok info =>
          Ok (aggregate repr player_id info
                (fst (check_ban_status w1 player_id st)))
      | Raise e => Raise e
      end).
    { rewrite check_banned_fast_eq. reflexivity. }
    rewrite Hvalue.
    destruct (fst (get_player_info_cached repr w1 player_id server st))
      as [info1|e] eqn:Hinfo.
    - pose proof (cached_then_resident _ _ _ _ Hinfo) as Hres.
      rewrite <- Hcache in Hres.
      rewrite cached_value in Hinfo.
      destruct (check_banned_fast_hit w2 _ _ _ Hres) as [Hsecond Hcalls].
      split; [exact Hcalls|]. split.
      + eexists. split; [exact Hsecond|].
        rewrite !account_fields_aggregate. reflexivity.
      + rewrite account_fields_aggregate.
        destruct (lru_find cache_key_eq_dec (player_id, server) (st_cache st))
          as [stored|].
        * injection Hinfo as ->. reflexivity.
        * exists info1. split; [exact Hinfo|reflexivity].
    - rewrite Hcache, cached_cache, Hinfo.
      rewrite cached_value in Hinfo.
      destruct (lru_find cache_key_eq_dec (player_id, server) (st_cache st));
        [discriminate Hinfo|reflexivity]. }
  assert (Hfirst :
    fst (check repr w1 args st) =
    route_except w1 (args_get (arg_uid args) [])
      (let* result :=
         fst (check_banned_fast repr w1 (args_get (arg_uid args) [])
                (args_get (arg_server args) (lit "BD")) st) in
       respond 200 result)).
  { rewrite (@check_valid_uid _ args _ Hdigit). reflexivity. }
  assert (Hsecond :
    fst (check repr w2 args (snd (check repr w1 args st))) =
    route_except w2 (args_get (arg_uid args) [])
      (let* result :=
         fst (check_banned_fast repr w2 (args_get (arg_uid args) [])
                (args_get (arg_server args) (lit "BD"))
                (snd (check repr w1 args st))) in
       respond 200 result)).
  { rewrite (@check_valid_uid w2 args _ Hdigit). reflexivity. }
  split; [exact Hfirst|]. split; [exact Hsecond|]. split; [exact Hcore|].
  intros r1 r2 H1 S1 H2 S2.
  pose proof (check_answered_200 _ _ _ Hdigit H1 S1) as L1.
  pose proof (check_answered_200 _ _ _ Hdigit H2 S2) as L2.
  rewrite L1 in Hcore. destruct Hcore as (_ & (result2 & E2 & F2) & _).
  rewrite L2 in E2. injection E2 as <-. exact F2.
Qed.

(** ** The aggregated result *)

Lemma check_ban_status_eq (w : World) (player_id : pystr) (st : State) :
  fst (check_ban_status w player_id st) =
  match http w (BAN_API ++ player_id) with
  | Responded code body =>
      match parse_ban {| status_code := code; body_json := body |} with
      | Ok ban => ban
      | Raise _ => ban_failed
      end
  | TimedOut | Failed => ban_failed
  end.
Proof.
  unfold check_ban_status, bind, ret, requests_get.
  destruct (http w (BAN_API ++ player_id)); reflexivity.
Qed.

(** What [check_banned_fast] returns: the aggregate of the record and
    the ban record, or the exception of the account lookup. *)
Lemma check_banned_fast_value
      (w : World) (player_id server : pystr) (st : State) :
  fst (check_banned_fast repr w player_id server st) =
  match fst (get_player_info_cached repr w player_id server st) with
  | Ok info =>
      Ok (aggregate repr player_id info (fst (check_ban_status w player_id st)))
  | Raise e => Raise e
  end.
Proof. rewrite check_banned_fast_eq. reflexivity. Qed.

(** C5: the status text of the aggregated result is the success text
    exactly when [check_ban_status] reported success, that is, when the ban
    service answered 200 with a JSON object whose ["data"] is absent or an
    object.  Neither the account service nor the cache has a part in it;
    there is no result only when the account lookup itself raises. *)
Theorem status_reflects_ban_lookup
        (w : World) (player_id server : pystr) (st : State) :
  let ban := fst (check_ban_status w player_id st) in
  match fst (check_banned_fast repr w player_id server st) with
  | Ok result =>
      body_lookup KEY_STATUS result =
      Some (PStr (if success ban then lit "Account checked successfully"
                  else lit "Partial data fetched"))
  | Raise e =>
      fst (get_player_info_cached repr w player_id server st) = Raise e
  end /\
  lit "Account checked successfully" <> lit "Partial data fetched" /\
  success ban =
  match http w (BAN_API ++ player_id) with
  | Responded code (Some (PDict body)) =>
      Z.eqb code 200 &&
      match dict_lookup (lit "data") body with
      | None | Some (PDict _) => true
      | Some _ => false
      end
  | _ => false
  end.
Proof.
  cbv zeta. split; [|split].
  - rewrite check_banned_fast_value.
    destruct (fst (get_player_info_cached repr w player_id server st))
      as [info|e]; [|reflexivity].
    unfold aggregate.
    destruct (signature info) as [sig|]; [destruct (truthy sig)|]; reflexivity.
  - discriminate.
  - rewrite check_ban_status_eq.
    destruct (http w (BAN_API ++ player_id)) as [code body| |];
      try reflexivity.
    unfold parse_ban. cbn [status_code].
    destruct (Z.eqb code 200); [|destruct body as [[]|]; reflexivity].
    destruct body as [body|]; [|reflexivity].
    destruct body; try reflexivity.
    cbn [response_json body_json rbind py_get]. unfold dict_get.
    destruct (dict_lookup (lit "data") d) as [data|]; [|reflexivity].
    destruct data; reflexivity.
Qed.

(** C6, as the code has it: the account text of the aggregated result is
    U+1F6AB, a space and "BANNED" when the ban flag is truthy, and U+2705, a
    space and "NOT BANNED" otherwise; the duration is the period followed
    by " month(s)" when banned and "No ban" otherwise.  The period is
    substituted as [str] writes it: an integer in decimal, a text as it is.
    A period of 3 gives "3 month(s)". *)
Theorem ban_texts (w : World) (player_id server : pystr) (st : State) :
  let ban := fst (check_ban_status w player_id st) in
  match fst (check_banned_fast repr w player_id server st) with
  | Ok result =>
      body_lookup KEY_ACCOUNT result =
      Some (PStr (if truthy (is_banned ban)
                  then marked [NO_ENTRY] "BANNED"
                  else marked [CHECK_MARK] "NOT BANNED")) /\
      body_lookup KEY_DURATION result =
      Some (PStr (if truthy (is_banned ban)
                  then
                    match period ban with
                    | PInt months => PyStr.of_Z months
                    | PStr text => text
                    | PBool true => lit "True"
                    | PBool false => lit "False"
                    | PNone => lit "None"
                    | other => repr other
                    end ++ lit " month(s)"
                  else lit "No ban")) /\
      body_lookup KEY_BANNED result = Some (PBool (truthy (is_banned ban)))
  | Raise e =>
      fst (get_player_info_cached repr w player_id server st) = Raise e
  end /\
  marked [NO_ENTRY] "BANNED" <> marked [CHECK_MARK] "NOT BANNED" /\
  match fst (check_banned_fast repr (banned_world 3) (lit "123") (lit "BD")
               initial_state) with
  | Ok result =>
      body_lookup KEY_DURATION result = Some (PStr (lit "3 month(s)"))
  | Raise _ => False
  end.
Proof.
  cbv zeta. split; [|split; [discriminate|reflexivity]].
  rewrite check_banned_fast_value.
  destruct (fst (get_player_info_cached repr w player_id server st))
    as [info|e]; [|reflexivity].
  unfold aggregate.
  destruct (period (fst (check_ban_status w player_id st)))
    as [|[|]| | | | |];
    (destruct (signature info) as [sig|]; [destruct (truthy sig)|]);
    repeat split.
Qed.

(** ** Timestamps *)

Lemma split_space_not_nil (s : pystr) : split_space s <> [].
Proof.
  destruct s as [|c r]; cbn; [discriminate|].
  destruct (N.eqb c PyStr.space); [discriminate|].
  destruct (split_space r); discriminate.
Qed.

Lemma join_space_cons (t : pystr) (ts : list pystr) :
  ts <> [] -> join_space (t :: ts) = t ++ PyStr.space :: join_space ts.
Proof. destruct ts; [congruence|reflexivity]. Qed.

(** Joining the tokens gives the string back. *)
Lemma join_split_space (s : pystr) : join_space (split_space s) = s.
Proof.
  induction s as [|c r IH]; [reflexivity|].
  cbn [split_space]. destruct (N.eqb c PyStr.space) eqn:E.
  - rewrite join_space_cons by apply split_space_not_nil.
    apply N.eqb_eq in E. rewrite IH, E. reflexivity.
  - pose proof (split_space_not_nil r) as NN.
    destruct (split_space r) as [|t ts]; [congruence|].
    destruct ts as [|u us].
    + cbn in IH |- *. now rewrite IH.
    + rewrite join_space_cons by discriminate.
      rewrite join_space_cons in IH by discriminate.
      rewrite <- IH. reflexivity.
Qed.

Lemma split_space_token (token rest : pystr) :
  forallb (fun c => negb (N.eqb c PyStr.space)) token = true ->
  split_space (token ++ PyStr.space :: rest) = token :: split_space rest.
Proof.
  induction token as [|c token IH]; cbn [forallb app]; intros H.
  - reflexivity.
  - apply andb_prop in H. destruct H as [Hc Ht].
    cbn [split_space]. apply negb_true_iff in Hc. rewrite Hc.
    rewrite IH by exact Ht. reflexivity.
Qed.

(** A date, a time and whatever follows the second space: the rest is
    dropped. *)
Lemma parse_date_string_drops_zone (date time zone : pystr) :
  forallb (fun c => negb (N.eqb c PyStr.space)) date = true ->
  forallb (fun c => negb (N.eqb c PyStr.space)) time = true ->
  parse_date_string (PStr (date ++ PyStr.space :: time ++ PyStr.space :: zone)) =
  PStr (date ++ PyStr.space :: time).
Proof.
  intros Hd Ht. unfold parse_date_string.
  rewrite (@split_space_token _ _ Hd), (@split_space_token _ _ Ht).
  destruct date; reflexivity.
Qed.

(** C7: on a string, [parse_date_string] keeps the first two tokens that
    single spaces delimit, joined by one space (a string with one token
    is that token); "2025-02-10 20:27:51 BDT" becomes
    "2025-02-10 20:27:51"; the empty string becomes the "Unknown" text,
    which the code prefixes with U+274C and a space. *)
Theorem parse_date_string_tokens (s : pystr) :
  parse_date_string (PStr s) =
  PStr (match s with
        | [] => UNKNOWN
        | _ => join_space (firstn 2 (split_space s))
        end) /\
  parse_date_string (PStr (lit "2025-02-10 20:27:51 BDT")) =
  PStr (lit "2025-02-10 20:27:51") /\
  parse_date_string (PStr []) = PStr (marked [CROSS_MARK] "Unknown").
Proof.
  split; [|split; reflexivity].
  destruct s as [|c r]; [reflexivity|].
  unfold parse_date_string. cbn [truthy List.length Nat.eqb negb].
  pose proof (join_split_space (c :: r)) as J.
  pose proof (split_space_not_nil (c :: r)) as NN.
  destruct (split_space (c :: r)) as [|t [|u us]]; [congruence| |reflexivity].
  cbn in J |- *. now rewrite J.
Qed.


(** ** The parsed record *)

(** The record built from an answer 200 whose body is an object with
    well-formed sections: only the signature can still raise. *)
Lemma parse_body_sections
      (d account profile guild social : list (pystr * pyval)) (server : pystr) :
  section_items d "AccountInfo" = Some account ->
  section_items d "AccountProfileInfo" = Some profile ->
  section_items d "GuildInfo" = Some guild ->
  section_items d "SocialInfo" = Some social ->
  parse_body repr
    {| status_code := 200; body_json := Some (PDict d) |} server =
  let* shown :=
    truncate_signature (dict_get social (lit "signature") (PStr [])) in
  Ok {| nickname := dict_get account (lit "AccountName") (PStr NOT_AVAILABLE);
        region := dict_get account (lit "AccountRegion") (PStr server);
        lastLoginAt := PStr (lit "0");
        lastLoginReadable :=
          parse_date_string (dict_get account (lit "AccountLastLogin") (PStr []));
        createAt := PStr (lit "0");
        createAtReadable :=
          parse_date_string (dict_get account (lit "AccountCreateTime") (PStr []));
        level :=
          PStr (py_str repr (dict_get account (lit "AccountLevel") (PStr (lit "0"))));
        experience :=
          PStr (py_str repr (dict_get account (lit "AccountEXP") (PStr (lit "0"))));
        rank :=
          PStr (lit "BR: " ++
                py_str repr (dict_get profile (lit "BrRankPoint") (PStr (lit "0"))));
        guild := dict_get guild (lit "GuildName") (PStr (lit "No Guild"));
        signature := Some shown |}.
Proof.
  unfold section_items. intros Ha Hp Hg Hs.
  unfold parse_body.
  cbn [body_json response_json rbind py_get].
  destruct (dict_get d (lit "AccountInfo") (PDict [])); try discriminate.
  destruct (dict_get d (lit "AccountProfileInfo") (PDict [])); try discriminate.
  destruct (dict_get d (lit "GuildInfo") (PDict [])); try discriminate.
  destruct (dict_get d (lit "SocialInfo") (PDict [])); try discriminate.
  injection Ha as ->. injection Hp as ->. injection Hg as ->. injection Hs as ->.
  reflexivity.
Qed.

(** On an answer 200 [get_player_info] prints nothing unless the body
    raises while it is read. *)
Lemma get_player_info_200
      (w : World) (player_id server : pystr) (st : State) (body : option pyval) :
  http w (INFO_API ++ player_id) = Responded 200 body ->
  fst (get_player_info repr w player_id server st) =
  recover w player_id server
    (parse_body repr {| status_code := 200; body_json := body |} server).
Proof.
  intros Hw. rewrite get_player_info_eq, Hw. reflexivity.
Qed.

Lemma truncate_signature_str (s : pystr) :
  truncate_signature (PStr s) =
  Ok (PStr (if Nat.ltb 50 (List.length s)
            then firstn 50 s ++ lit "..."
            else s)).
Proof.
  unfold truncate_signature. cbn [py_len rbind].
  destruct (Nat.ltb 50 (List.length s)); reflexivity.
Qed.

(** C8: a signature string longer than 50 characters is stored as its
    first 50 characters followed by "..."; one of at most 50 characters is
    stored as it is. *)
Theorem signature_truncated_at_50
        (w : World) (player_id server : pystr) (st : State)
        (d account profile guild social : list (pystr * pyval)) (s : pystr) :
  http w (INFO_API ++ player_id) = Responded 200 (Some (PDict d)) ->
  section_items d "AccountInfo" = Some account ->
  section_items d "AccountProfileInfo" = Some profile ->
  section_items d "GuildInfo" = Some guild ->
  section_items d "SocialInfo" = Some social ->
  dict_lookup (lit "signature") social = Some (PStr s) ->
  exists info,
    fst (get_player_info repr w player_id server st) = Ok info /\
    signature info =
    Some (PStr (if Nat.ltb 50 (List.length s)
                then firstn 50 s ++ lit "..."
                else s)).
Proof.
  intros Hw Ha Hp Hg Hs Hsig.
  rewrite (@get_player_info_200 w player_id server st _ Hw).
  rewrite (@parse_body_sections d _ _ _ _ server Ha Hp Hg Hs).
  unfold dict_get at 1. rewrite Hsig, truncate_signature_str.
  eexists. split; reflexivity.
Qed.

(** C10: an answer 200 whose body is an object without the keys that
    [get_player_info] reads (absent sections, or sections that are objects
    without them) gives the placeholder record: nickname "Not available"
    (after U+274C and a space), the region of the caller, level and
    experience "0", rank "BR: 0", guild "No Guild" and an empty signature.
    It is none of the fallbacks, and the aggregated result built from it
    has no BIO field. *)
Theorem placeholder_on_missing_keys
        (w : World) (player_id server : pystr) (st : State)
        (d account profile guild social : list (pystr * pyval))
        (ban : ban_info) :
  http w (INFO_API ++ player_id) = Responded 200 (Some (PDict d)) ->
  section_items d "AccountInfo" = Some account ->
  section_items d "AccountProfileInfo" = Some profile ->
  section_items d "GuildInfo" = Some guild ->
  section_items d "SocialInfo" = Some social ->
  dict_lookup (lit "AccountName") account = None ->
  dict_lookup (lit "AccountRegion") account = None ->
  dict_lookup (lit "AccountLevel") account = None ->
  dict_lookup (lit "AccountEXP") account = None ->
  dict_lookup (lit "AccountLastLogin") account = None ->
  dict_lookup (lit "AccountCreateTime") account = None ->
  dict_lookup (lit "BrRankPoint") profile = None ->
  dict_lookup (lit "GuildName") guild = None ->
  dict_lookup (lit "signature") social = None ->
  fst (get_player_info repr w player_id server st) =
  Ok (placeholder_info server) /\
  (forall nick region, placeholder_info server <> fallback_info nick region) /\
  body_lookup KEY_BIO
    (aggregate repr player_id (placeholder_info server) ban) = None.
Proof.
  intros Hw Ha Hp Hg Hs N1 N2 N3 N4 N5 N6 N7 N8 N9.
  split; [|split; [intros nick region; discriminate|reflexivity]].
  rewrite (@get_player_info_200 w player_id server st _ Hw).
  rewrite (@parse_body_sections d _ _ _ _ server Ha Hp Hg Hs).
  unfold dict_get. rewrite N1, N2, N3, N4, N5, N6, N7, N8, N9.
  reflexivity.
Qed.

(** ** The raw pass-through *)

(** C9, as the code has it: [get_full_info] fetches the account service
    for any [uid], without validating it.  An answer 200 with a JSON body
    is returned with status 200 and that body when the body can be encoded
    as UTF-8; an answer with another status is returned with that status
    and an error body carrying it; an exception (a timeout, a failed
    connection, a body that is not JSON or that cannot be encoded) gives
    500, with the exception body when the diagnostic line is printed. *)
Theorem get_full_info_passthrough (w : World) (uid : pystr) (st : State) :
  let out := fst (get_full_info w uid st) in
  let failed e :=
    out = (if stdout w (FullInfoError uid e)
           then Ok {| resp_status := 500; resp_body := exception_body |}
           else Raise OtherError) /\
    http_status out = 500%Z in
  st_calls (snd (get_full_info w uid st)) = st_calls st ++ [INFO_API ++ uid] /\
  match http w (INFO_API ++ uid) with
  | Responded code body =>
      if Z.eqb code 200
      then
        match body with
        | Some data =>
            if utf8_encodable data
            then out = Ok {| resp_status := 200; resp_body := data |}
            else failed OtherError
        | None => failed OtherError
        end
      else
        out = Ok {| resp_status := code;
                    resp_body :=
                      PDict [ (KEY_ERROR,
                               PStr (lit "Failed to fetch account info"));
                              (KEY_STATUS_CODE, PInt code) ] |}
  | TimedOut => failed RequestsTimeout
  | Failed => failed OtherError
  end.
Proof.
  cbv zeta. unfold get_full_info, bind, ret, requests_get.
  cbn [fst snd st_calls]. split; [reflexivity|].
  assert (F : forall e,
             full_info_except w uid (Raise e) =
             (if stdout w (FullInfoError uid e)
              then Ok {| resp_status := 500; resp_body := exception_body |}
              else Raise OtherError) /\
             http_status (full_info_except w uid (Raise e)) = 500%Z).
  { intros e. unfold full_info_except, py_print.
    destruct (stdout w (FullInfoError uid e)); split; reflexivity. }
  destruct (http w (INFO_API ++ uid)) as [code body| |];
    cbn [rbind status_code]; try apply F.
  destruct (Z.eqb code 200) eqn:E; [|reflexivity].
  destruct body as [data|]; cbn [response_json body_json rbind]; [|apply F].
  unfold respond. destruct (utf8_encodable data); [reflexivity|apply F].
Qed.

End Properties.

(** * Further properties of the module *)

(** ** Stored values of the bounded cache *)

Section LruStability.

Variables K V : Type.
Variable K_eq_dec : forall a b : K, {a = b} + {a <> b}.
Variable maxsize : nat.

Lemma lru_find_remove_other (k k' : K) (c : lru K V) :
  k <> k' ->
  lru_find K_eq_dec k (lru_remove K_eq_dec k' c) = lru_find K_eq_dec k c.
Proof.
  intros N. induction c as [|[k0 v0] c IH]; [reflexivity|].
  unfold lru_remove in *. cbn [filter fst].
  destruct (K_eq_dec k' k0) as [->|N0]; cbn [lru_find].
  - destruct (K_eq_dec k k0); [contradiction|exact IH].
  - destruct (K_eq_dec k k0); [reflexivity|exact IH].
Qed.

Lemma lru_find_tl (k : K) (v : V) (c : lru K V) :
  NoDup (lru_keys c) ->
  lru_find K_eq_dec k c = Some v ->
  lru_find K_eq_dec k (List.tl c) = Some v \/
  lru_find K_eq_dec k (List.tl c) = None.
Proof.
  destruct c as [|[k0 v0] c]; [discriminate|].
  cbn [lru_keys map fst lru_find List.tl]. intros D H.
  destruct (K_eq_dec k k0) as [->|N].
  - right. apply lru_find_none. now inversion D.
  - left. exact H.
Qed.

(** One use of the wrapper leaves every stored value as it is: a key that
    was resident is still bound to the same value, or has been evicted. *)
Lemma lru_step_keeps_values (k k' : K) (v fresh : V) (c : lru K V) :
  NoDup (lru_keys c) ->
  lru_find K_eq_dec k c = Some v ->
  let c' :=
    match lru_find K_eq_dec k' c with
    | Some v' => lru_promote K_eq_dec k' v' c
    | None => lru_store K_eq_dec maxsize k' fresh c
    end in
  lru_find K_eq_dec k c' = Some v \/ lru_find K_eq_dec k c' = None.
Proof.
  intros D H. cbv zeta.
  destruct (lru_find K_eq_dec k' c) as [v'|] eqn:E.
  - left. destruct (K_eq_dec k k') as [->|N].
    + rewrite lru_find_promote. congruence.
    + unfold lru_promote. rewrite lru_find_app, lru_find_remove_other by exact N.
      rewrite H. reflexivity.
  - assert (N : k <> k') by congruence.
    unfold lru_store. rewrite E.
    destruct (Nat.leb maxsize (List.length c)); rewrite lru_find_app.
    + destruct (@lru_find_tl k v c D H) as [T|T]; rewrite T; [now left|].
      right. cbn. destruct (K_eq_dec k k'); [contradiction|reflexivity].
    + rewrite H. now left.
Qed.

Lemma tracks_keys_distinct (order : list K) (c : lru K V) :
  tracks maxsize order c -> NoDup (lru_keys c).
Proof.
  intros (D & _ & older & -> & _). exact (NoDup_app_remove_l _ _ D).
Qed.

Lemma recency_snoc (accesses : list K) (k : K) :
  recency K_eq_dec (accesses ++ [k]) =
  touch K_eq_dec k (recency K_eq_dec accesses).
Proof. unfold recency. rewrite fold_left_app. reflexivity. Qed.

Lemma touch_present (k : K) (before after : list K) :
  ~ In k before -> ~ In k after ->
  touch K_eq_dec k (before ++ k :: after) = before ++ after ++ [k].
Proof.
  intros B A. unfold touch. rewrite filter_app. cbn [filter].
  destruct (K_eq_dec k k); [|congruence].
  rewrite (@filter_other_absent K K_eq_dec k before B).
  rewrite (@filter_other_absent K K_eq_dec k after A).
  now rewrite <- app_assoc.
Qed.

Lemma touch_absent (k : K) (order : list K) :
  ~ In k order -> touch K_eq_dec k order = order ++ [k].
Proof.
  intros A. unfold touch.
  now rewrite (@filter_other_absent K K_eq_dec k order A).
Qed.

Lemma lru_find_tl_absent (k : K) (c : lru K V) :
  lru_find K_eq_dec k c = None -> lru_find K_eq_dec k (List.tl c) = None.
Proof.
  destruct c as [|[k0 v0] c]; [reflexivity|]. cbn [lru_find List.tl].
  destruct (K_eq_dec k k0); [discriminate|auto].
Qed.

(** A use of the wrapper for one key does not make another key resident. *)
Lemma lru_step_other_absent (k k' : K) (fresh : V) (c : lru K V) :
  k <> k' ->
  lru_find K_eq_dec k c = None ->
  lru_find K_eq_dec k
    match lru_find K_eq_dec k' c with
    | Some v' => lru_promote K_eq_dec k' v' c
    | None => lru_store K_eq_dec maxsize k' fresh c
    end = None.
Proof.
  intros N H.
  assert (L : forall v' : V, lru_find K_eq_dec k [(k', v')] = None).
  { intros v'. cbn. destruct (K_eq_dec k k'); [contradiction|reflexivity]. }
  destruct (lru_find K_eq_dec k' c) as [v'|] eqn:E.
  - unfold lru_promote.
    rewrite lru_find_app, lru_find_remove_other, H by exact N. apply L.
  - unfold lru_store. rewrite E.
    destruct (Nat.leb maxsize (List.length c)); rewrite lru_find_app.
    + rewrite (@lru_find_tl_absent k c H). apply L.
    + rewrite H. apply L.
Qed.

End LruStability.


Section Coverage.

Variable repr : pyval -> pystr.

(** ** The handler of [/check] *)

(** The status that a request to [/check] is answered with.  A [uid] that
    fails [str.isdigit] gets 400, with the message for an absent [uid] or
    the one for a malformed [uid], and the cache and the log of fetches
    are left as they were.  A [uid] that passes gets 200 when the lookup
    returns a result that can be encoded, and 500 otherwise. *)
Theorem check_status_by_validation
        (w : World) (args : query_args) (st : State) :
  let uid := args_get (arg_uid args) [] in
  let server := args_get (arg_server args) (lit "BD") in
  let out := check repr w args st in
  if PyStr.isdigit uid
  then
    http_status (fst out) =
    match fst (check_banned_fast repr w uid server st) with
    | Ok result => if utf8_encodable result then 200%Z else 500%Z
    | Raise _ => 500%Z
    end
  else
    snd out = st /\
    fst out =
    Ok {| resp_status := 400;
          resp_body :=
            match uid with
            | [] => error_body "Player ID (uid) is required!" 400
            | _ => error_body "Invalid UID format. Must be numeric!" 400
            end |}.
Proof.
  cbv zeta. destruct (PyStr.isdigit (args_get (arg_uid args) [])) eqn:E.
  - rewrite (@check_valid_uid repr w args st E). cbv zeta. cbn [fst].
    rewrite route_except_status.
    destruct (fst (check_banned_fast repr w (args_get (arg_uid args) [])
                     (args_get (arg_server args) (lit "BD")) st))
      as [result|e]; cbn [rbind]; [|reflexivity].
    unfold respond. destruct (utf8_encodable result); reflexivity.
  - rewrite (@check_rejects_invalid_uid repr w args st E). split; reflexivity.
Qed.

(** A [uid] with an ASCII character other than 0-9 (a sign, a point, a
    blank, a letter) is answered 400 and nothing is fetched or cached. *)
Theorem check_rejects_ascii_non_digit
        (w : World) (uid : pystr) (server : option pystr) (st : State) (c : N) :
  In c uid -> (c < 128)%N -> char_is_ascii_digit c = false ->
  let out :=
    check repr w {| arg_uid := Some uid; arg_server := server |} st in
  http_status (fst out) = 400%Z /\
  snd out = st /\
  fst out =
  Ok {| resp_status := 400;
        resp_body := error_body "Invalid UID format. Must be numeric!" 400 |}.
Proof.
  intros Hin Hc Hd. cbv zeta.
  rewrite (@check_rejects_invalid_uid repr w
             {| arg_uid := Some uid; arg_server := server |} st
             (@ascii_non_digit_fails uid c Hin Hc Hd)).
  cbn [arg_uid args_get fst snd http_status resp_status].
  destruct uid as [|a r]; [destruct Hin|]. repeat split.
Qed.

(** A non-empty [uid] of the digits 0-9 whose lookup returns a result that
    can be encoded is answered 200 with that result, in which the [uid] is
    echoed. *)
Theorem check_accepts_ascii_digits
        (w : World) (uid : pystr) (server : option pystr) (st : State)
        (result : pyval) :
  all_ascii_digits uid = true ->
  fst (check_banned_fast repr w uid (args_get server (lit "BD")) st) =
  Ok result ->
  utf8_encodable result = true ->
  fst (check repr w {| arg_uid := Some uid; arg_server := server |} st) =
  Ok {| resp_status := 200; resp_body := result |} /\
  body_lookup KEY_UID result = Some (PStr uid).
Proof.
  intros H Hrun Henc.
  rewrite (@check_valid_uid repr w
             {| arg_uid := Some uid; arg_server := server |} st
             (@ascii_digits_isdigit uid H)).
  cbv zeta. cbn [fst arg_uid arg_server args_get].
  rewrite Hrun. cbn [rbind]. unfold respond. rewrite Henc.
  split; [reflexivity|].
  rewrite check_banned_fast_value in Hrun.
  destruct (fst (get_player_info_cached repr w uid
                   (args_get server (lit "BD")) st)) as [info|e];
    [|discriminate Hrun].
  injection Hrun as <-. unfold aggregate.
  destruct (signature info) as [sig|]; [destruct (truthy sig)|]; reflexivity.
Qed.

(** ** The ban lookup *)

(** [check_ban_status] fetches the ban service once, leaves the cache
    alone, and never fails: it reports success only for an answer 200 whose
    body is an object with ["data"] absent or an object, reading
    ["is_banned"] and ["period"] from it with default 0; every other
    outcome (another status, a timeout, a failed connection, a body that is
    not JSON or not an object, a ["data"] that is not an object) gives
    [{is_banned: 0, period: 0, success: False}]. *)
Theorem check_ban_status_degrades (w : World) (player_id : pystr) (st : State) :
  let out := check_ban_status w player_id st in
  snd out =
  {| st_cache := st_cache st;
     st_calls := st_calls st ++ [BAN_API ++ player_id] |} /\
  fst out =
  match http w (BAN_API ++ player_id) with
  | Responded code (Some (PDict body)) =>
      if Z.eqb code 200
      then
        match dict_get body (lit "data") (PDict []) with
        | PDict data =>
            {| is_banned := dict_get data (lit "is_banned") (PInt 0);
               period := dict_get data (lit "period") (PInt 0);
               success := true |}
        | _ => ban_failed
        end
      else ban_failed
  | _ => ban_failed
  end.
Proof.
  cbv zeta. split; [reflexivity|].
  rewrite check_ban_status_eq.
  destruct (http w (BAN_API ++ player_id)) as [code body| |]; try reflexivity.
  unfold parse_ban. cbn [status_code].
  destruct (Z.eqb code 200); [|destruct body as [[]|]; reflexivity].
  destruct body as [[]|]; try reflexivity.
  cbn [response_json body_json rbind py_get].
  destruct (dict_get d (lit "data") (PDict [])); reflexivity.
Qed.

(** A ban lookup that did not succeed carries the record of a failure. *)
Lemma ban_unsuccessful (w : World) (player_id : pystr) (st : State) :
  success (fst (check_ban_status w player_id st)) = false ->
  fst (check_ban_status w player_id st) = ban_failed.
Proof.
  rewrite check_ban_status_eq.
  destruct (http w (BAN_API ++ player_id)) as [code body| |]; try reflexivity.
  unfold parse_ban. cbn [status_code].
  destruct (Z.eqb code 200); [|reflexivity].
  destruct body as [[]|]; try reflexivity.
  cbn [response_json body_json rbind py_get].
  destruct (dict_get d (lit "data") (PDict [])); try reflexivity.
  cbn. discriminate.
Qed.

Lemma aggregate_ban_fields (player_id : pystr) (info : player_info) (ban : ban_info) :
  let result := aggregate repr player_id info ban in
  body_lookup KEY_STATUS result =
  Some (PStr (if success ban then lit "Account checked successfully"
              else lit "Partial data fetched")) /\
  body_lookup KEY_ACCOUNT result =
  Some (PStr (if truthy (is_banned ban) then BANNED else NOT_BANNED)) /\
  body_lookup KEY_DURATION result =
  Some (PStr (if truthy (is_banned ban)
              then py_str repr (period ban) ++ lit " month(s)"
              else lit "No ban")) /\
  body_lookup KEY_BANNED result = Some (PBool (truthy (is_banned ban))).
Proof.
  cbv zeta. unfold aggregate.
  destruct (signature info) as [sig|]; [destruct (truthy sig)|];
    repeat split.
Qed.

(** The result never shows a ban that was not looked up: when the status
    text is "Partial data fetched", the account is shown as not banned, with
    "No ban" and a false flag.  There is no result only when the account
    lookup raises. *)
Theorem failed_ban_lookup_shows_not_banned
        (w : World) (player_id server : pystr) (st : State) :
  success (fst (check_ban_status w player_id st)) = false ->
  match fst (check_banned_fast repr w player_id server st) with
  | Ok result =>
      body_lookup KEY_STATUS result = Some (PStr (lit "Partial data fetched")) /\
      body_lookup KEY_ACCOUNT result = Some (PStr NOT_BANNED) /\
      body_lookup KEY_DURATION result = Some (PStr (lit "No ban")) /\
      body_lookup KEY_BANNED result = Some (PBool false)
  | Raise e =>
      fst (get_player_info_cached repr w player_id server st) = Raise e
  end.
Proof.
  intros H. rewrite check_banned_fast_value.
  destruct (fst (get_player_info_cached repr w player_id server st))
    as [info|e]; [|reflexivity].
  pose proof (@aggregate_ban_fields player_id info
                (fst (check_ban_status w player_id st))) as A.
  cbv zeta in A. rewrite (ban_unsuccessful _ _ _ H) in A |- *.
  exact A.
Qed.

Lemma months_is_not_no_ban (text : pystr) :
  text ++ lit " month(s)" <> lit "No ban".
Proof.
  intros E. apply (f_equal (@List.length N)) in E.
  rewrite length_app in E. cbn in E. lia.
Qed.

(** The three ban fields of a result agree with each other: the flag is
    true exactly when the account text is the "BANNED" one, and exactly when
    the duration is not "No ban". *)
Theorem ban_fields_agree (w : World) (player_id server : pystr) (st : State) :
  match fst (check_banned_fast repr w player_id server st) with
  | Ok result =>
      exists (flag : bool) (account duration : pystr),
        body_lookup KEY_BANNED result = Some (PBool flag) /\
        body_lookup KEY_ACCOUNT result = Some (PStr account) /\
        body_lookup KEY_DURATION result = Some (PStr duration) /\
        (flag = true <-> account = BANNED) /\
        (flag = false <-> account = NOT_BANNED) /\
        (flag = false <-> duration = lit "No ban")
  | Raise e =>
      fst (get_player_info_cached repr w player_id server st) = Raise e
  end.
Proof.
  rewrite check_banned_fast_value.
  destruct (fst (get_player_info_cached repr w player_id server st))
    as [info|e]; [|reflexivity].
  set (ban := fst (check_ban_status w player_id st)).
  destruct (@aggregate_ban_fields player_id info ban) as (_ & A & D & B).
  exists (truthy (is_banned ban)). eexists. eexists.
  split; [exact B|]. split; [exact A|]. split; [exact D|].
  destruct (truthy (is_banned ban)); (split; [|split]); split; intros E;
    try reflexivity; try discriminate E.
  exfalso. exact (@months_is_not_no_ban _ E).
Qed.

(** ** The aggregated result *)

Lemma result_keys_distinct : NoDup (RESULT_KEYS ++ [KEY_BIO]).
Proof.
  assert (E : nodup PyStr.eq_dec (RESULT_KEYS ++ [KEY_BIO]) =
              RESULT_KEYS ++ [KEY_BIO]) by (vm_compute; reflexivity).
  rewrite <- E. apply NoDup_nodup.
Qed.

(** A result of [check_banned_fast] is a dict with the fifteen fixed keys
    in the order of the source, followed by the BIO key or not, and no key
    occurs twice, so that none of the fields hides another. *)
Theorem check_banned_fast_result_keys
        (w : World) (player_id server : pystr) (st : State) :
  match fst (check_banned_fast repr w player_id server st) with
  | Ok result =>
      exists items,
        result = PDict items /\
        (map fst items = RESULT_KEYS \/
         map fst items = RESULT_KEYS ++ [KEY_BIO]) /\
        NoDup (map fst items)
  | Raise e =>
      fst (get_player_info_cached repr w player_id server st) = Raise e
  end.
Proof.
  rewrite check_banned_fast_value.
  destruct (fst (get_player_info_cached repr w player_id server st))
    as [info|e]; [|reflexivity].
  unfold aggregate.
  destruct (signature info) as [sig|]; [destruct (truthy sig)|];
    eexists; (split; [reflexivity|]).
  - split; [right; reflexivity|]. exact result_keys_distinct.
  - split; [left; reflexivity|].
    exact (NoDup_app_remove_r _ _ result_keys_distinct).
  - split; [left; reflexivity|].
    exact (NoDup_app_remove_r _ _ result_keys_distinct).
Qed.

Lemma aggregate_account_fields
      (player_id : pystr) (info : player_info) (ban : ban_info) :
  let result := aggregate repr player_id info ban in
  body_lookup KEY_NICKNAME result = Some (nickname info) /\
  body_lookup KEY_REGION result = Some (region info) /\
  body_lookup KEY_BIO result =
  match signature info with
  | Some sig => if truthy sig then Some sig else None
  | None => None
  end.
Proof.
  cbv zeta. unfold aggregate.
  destruct (signature info) as [sig|]; [destruct (truthy sig)|];
    repeat split.
Qed.

(** ** Fetches and the cache *)

(** One call of [check_banned_fast] fetches the ban service exactly once,
    whatever the cache holds, and the account service only when the pair
    (identifier, region) is not resident. *)
Theorem fetches_of_check_banned_fast
        (w : World) (player_id server : pystr) (st : State) :
  st_calls (snd (check_banned_fast repr w player_id server st)) =
  st_calls st ++
  match lru_find cache_key_eq_dec (player_id, server) (st_cache st) with
  | Some _ => []
  | None => [INFO_API ++ player_id]
  end ++ [BAN_API ++ player_id].
Proof.
  rewrite check_banned_fast_eq. cbv zeta. cbn [snd st_calls].
  destruct (lru_find cache_key_eq_dec (player_id, server) (st_cache st))
    as [info|] eqn:E.
  - rewrite (@cached_hit repr w _ _ _ _ E). reflexivity.
  - rewrite (@cached_miss repr w _ _ _ E). cbn [snd st_calls].
    rewrite <- app_assoc. reflexivity.
Qed.

(** The fallback of a failed fetch is cached like any record.  When the
    account service fails for a pair that is not resident and the
    diagnostic line is printed, the lookup returns a result with the
    nickname of the failure, the region of the caller and no BIO; the next
    lookup of the pair returns a result with the same nickname whatever the
    account service would answer by then, and does not fetch it. *)
Theorem failed_fetch_is_cached
        (w1 w2 : World) (player_id server : pystr) (st : State) :
  lru_find cache_key_eq_dec (player_id, server) (st_cache st) = None ->
  prints_for w1 player_id ->
  match http w1 (INFO_API ++ player_id) with
  | Responded code _ => code <> 200%Z
  | _ => True
  end ->
  let text :=
    match http w1 (INFO_API ++ player_id) with
    | Responded _ _ => marked [CROSS_MARK] "Fetch failed"
    | TimedOut => marked [CROSS_MARK] "Timeout"
    | Failed => marked [CROSS_MARK] "Error"
    end in
  let first := check_banned_fast repr w1 player_id server st in
  let second := check_banned_fast repr w2 player_id server (snd first) in
  exists result1 result2,
    fst first = Ok result1 /\
    body_lookup KEY_NICKNAME result1 = Some (PStr text) /\
    body_lookup KEY_REGION result1 = Some (PStr server) /\
    body_lookup KEY_BIO result1 = None /\
    fst second = Ok result2 /\
    body_lookup KEY_NICKNAME result2 = Some (PStr text) /\
    st_calls (snd second) = st_calls (snd first) ++ [BAN_API ++ player_id].
Proof.
  intros Hmiss Hprint Hfail. cbv zeta.
  set (text := match http w1 (INFO_API ++ player_id) with
               | Responded _ _ => marked [CROSS_MARK] "Fetch failed"
               | TimedOut => marked [CROSS_MARK] "Timeout"
               | Failed => marked [CROSS_MARK] "Error"
               end).
  assert (Hinfo : fst (get_player_info_cached repr w1 player_id server st) =
                  Ok (fallback_info text server)).
  { rewrite cached_value, Hmiss.
    rewrite (@get_player_info_printed repr w1 player_id server st Hprint).
    subst text.
    destruct (http w1 (INFO_API ++ player_id)) as [code body| |];
      try reflexivity.
    destruct (Z.eqb code 200) eqn:E; [apply Z.eqb_eq in E; contradiction|].
    reflexivity. }
  pose proof (cached_then_resident _ _ _ _ _ Hinfo) as Hres.
  assert (Hcache :
    st_cache (snd (check_banned_fast repr w1 player_id server st)) =
    st_cache (snd (get_player_info_cached repr w1 player_id server st))).
  { rewrite check_banned_fast_eq. reflexivity. }
  rewrite <- Hcache in Hres. clear Hcache.
  pose proof (check_banned_fast_value repr w1 player_id server st) as Hfirst.
  rewrite Hinfo in Hfirst.
  set (st1 := snd (check_banned_fast repr w1 player_id server st)) in *.
  clearbody st1.
  destruct (check_banned_fast_hit repr w2 _ _ _ Hres) as [Hsecond Hcalls].
  eexists. eexists.
  split; [exact Hfirst|].
  destruct (@aggregate_account_fields player_id (fallback_info text server)
              (fst (check_ban_status w1 player_id st))) as (N1 & R1 & B1).
  split; [exact N1|]. split; [exact R1|]. split; [exact B1|].
  split; [exact Hsecond|]. split; [|exact Hcalls].
  apply aggregate_account_fields.
Qed.

Lemma lookups_from_empty (reqs : list (World * cache_key)) :
  tracks CACHE_MAXSIZE
    (recency cache_key_eq_dec (served repr reqs initial_state))
    (st_cache (lookups repr reqs initial_state)).
Proof.
  exact (@lookups_tracks repr reqs initial_state [] (@tracks_empty _ _ _)).
Qed.

(** The cache never holds two entries for one pair (identifier, region). *)
Theorem cache_keys_distinct (reqs : list (World * cache_key)) :
  NoDup (lru_keys (st_cache (lookups repr reqs initial_state))).
Proof. exact (@tracks_keys_distinct _ _ _ _ _ (lookups_from_empty reqs)). Qed.

(** A record stays as it was stored for as long as it is resident: after
    one more lookup, of any pair and in any world, a pair that was
    resident is bound to the same record or has been evicted. *)
Theorem resident_record_is_stable
        (reqs : list (World * cache_key)) (w : World)
        (key : cache_key) (player_id server : pystr) (info : player_info) :
  let st := lookups repr reqs initial_state in
  let st' := snd (get_player_info_cached repr w player_id server st) in
  lru_find cache_key_eq_dec key (st_cache st) = Some info ->
  lru_find cache_key_eq_dec key (st_cache st') = Some info \/
  lru_find cache_key_eq_dec key (st_cache st') = None.
Proof.
  cbv zeta. intros H. rewrite cached_cache.
  destruct (fst (get_player_info_cached repr w player_id server
                   (lookups repr reqs initial_state))) as [fresh|e];
    [|left; exact H].
  exact (@lru_step_keeps_values _ _ cache_key_eq_dec CACHE_MAXSIZE key
           (player_id, server) info _ _
           (@tracks_keys_distinct _ _ _ _ _ (lookups_from_empty reqs)) H).
Qed.

(** A hit refreshes the entry.  Let 100 distinct pairs fill the cache,
    then the first of them be looked up again, then a new pair: the pair
    evicted is the second one, and the first is still resident. *)
Theorem hit_refreshes_entry
        (reqs : list (World * cache_key))
        (first second new : cache_key) (rest : list cache_key) :
  served repr reqs initial_state =
  first :: second :: rest ++ [first; new] ->
  List.length rest = 98 ->
  NoDup (first :: second :: rest ++ [new]) ->
  lru_keys (st_cache (lookups repr reqs initial_state)) =
  rest ++ [first; new].
Proof.
  intros Hkeys Hlen D.
  assert (P : 0 < CACHE_MAXSIZE) by (unfold CACHE_MAXSIZE; lia).
  rewrite (@tracks_lastn _ _ _ P _ _ (lookups_from_empty _)).
  rewrite Hkeys.
  change (first :: second :: rest ++ [first; new])
    with ((first :: second :: rest) ++ [first] ++ [new]).
  rewrite app_assoc, !recency_snoc.
  assert (D0 : NoDup (first :: second :: rest)).
  { rewrite !app_comm_cons in D. exact (NoDup_app_remove_r _ _ D). }
  rewrite (recency_distinct cache_key_eq_dec D0).
  assert (F : ~ In first (second :: rest)) by now inversion D0.
  pose proof (@touch_present _ cache_key_eq_dec first [] (second :: rest)
                (fun x => x) F) as T.
  cbn [app] in T. rewrite T. clear T.
  assert (N : ~ In new (second :: rest ++ [first])).
  { rewrite !app_comm_cons in D. apply NoDup_remove_2 in D.
    rewrite app_nil_r in D. intros I. apply D.
    change (In new ((second :: rest) ++ [first])) in I.
    apply in_app_or in I. destruct I as [I|[<-|[]]]; [now right|now left]. }
  rewrite (@touch_absent _ cache_key_eq_dec new _ N).
  assert (R : (second :: rest ++ [first]) ++ [new] =
              second :: (rest ++ [first; new])).
  { cbn [app]. rewrite <- app_assoc. reflexivity. }
  rewrite R. unfold lastn.
  replace (List.length (second :: rest ++ [first; new]) - CACHE_MAXSIZE)
    with 1; [reflexivity|].
  cbn [List.length]. rewrite length_app. cbn [List.length].
  unfold CACHE_MAXSIZE. lia.
Qed.

(** ** Answers of the account service *)

Lemma sections_of_some
      (body : option pyval) (account profile guild social : list (pystr * pyval)) :
  sections_of body = Some (account, profile, guild, social) ->
  exists d,
    body = Some (PDict d) /\
    section_items d "AccountInfo" = Some account /\
    section_items d "AccountProfileInfo" = Some profile /\
    section_items d "GuildInfo" = Some guild /\
    section_items d "SocialInfo" = Some social.
Proof.
  unfold sections_of. intros E.
  destruct body as [[| | | | |l|d]|]; try discriminate E.
  destruct (section_items d "AccountInfo") as [a|] eqn:Ha; [|discriminate E].
  destruct (section_items d "AccountProfileInfo") as [p|] eqn:Hp;
    [|discriminate E].
  destruct (section_items d "GuildInfo") as [g|] eqn:Hg; [|discriminate E].
  destruct (section_items d "SocialInfo") as [s|] eqn:Hs; [|discriminate E].
  injection E as -> -> -> ->. exists d. repeat split; assumption.
Qed.

(** An answer 200 whose body is not JSON or not an object, or one of whose
    sections is present without being an object, raises while it is
    read. *)
Lemma parse_body_malformed (body : option pyval) (server : pystr) :
  sections_of body = None ->
  parse_body repr {| status_code := 200; body_json := body |} server =
  Raise OtherError.
Proof.
  unfold sections_of, section_items, parse_body. intros H.
  cbn [body_json response_json].
  destruct body as [[| | | | |l|d]|]; try reflexivity.
  cbn [body_json response_json rbind py_get].
  destruct (dict_get d (lit "AccountInfo") (PDict [])); try reflexivity.
  cbn [rbind py_get].
  destruct (dict_get d (lit "AccountProfileInfo") (PDict [])); try reflexivity.
  cbn [rbind py_get].
  destruct (dict_get d (lit "GuildInfo") (PDict [])); try reflexivity.
  cbn [rbind py_get].
  destruct (dict_get d (lit "SocialInfo") (PDict [])); try reflexivity.
  discriminate H.
Qed.

(** The [except Exception] clause of [get_player_info]. *)
Lemma recover_other (w : World) (player_id server : pystr) :
  recover w player_id server (Raise OtherError) =
  if stdout w (PlayerInfoError player_id OtherError)
  then Ok (fallback_info ERROR_TEXT server)
  else Raise OtherError.
Proof.
  unfold recover, py_print.
  destruct (stdout w (PlayerInfoError player_id OtherError)); reflexivity.
Qed.

(** An answer 200 that is not of the expected form is not passed on in
    part: a body that is not JSON or not an object, or a section that is
    present but is not an object (a [null], say), gives the fallback named
    "Error", whatever else the answer holds; when the diagnostic line is
    not printed, the exception of the [print] leaves the function. *)
Theorem malformed_answer_gives_error
        (w : World) (player_id server : pystr) (st : State)
        (body : option pyval) :
  http w (INFO_API ++ player_id) = Responded 200 body ->
  sections_of body = None ->
  fst (get_player_info repr w player_id server st) =
  if stdout w (PlayerInfoError player_id OtherError)
  then Ok (fallback_info (marked [CROSS_MARK] "Error") server)
  else Raise OtherError.
Proof.
  intros Hw Hs.
  rewrite (@get_player_info_200 repr w player_id server st _ Hw).
  rewrite (parse_body_malformed _ server Hs). apply recover_other.
Qed.

(** A signature that is not text costs the whole record: when the
    signature of an otherwise well-formed answer is [null], a number or a
    boolean, or a list or an object of more than 50 elements, the result is
    the fallback named "Error"; when the diagnostic line is not printed,
    the exception of the [print] leaves the function. *)
Theorem malformed_signature_gives_error
        (w : World) (player_id server : pystr) (st : State)
        (d account profile guild social : list (pystr * pyval)) (sig : pyval) :
  http w (INFO_API ++ player_id) = Responded 200 (Some (PDict d)) ->
  section_items d "AccountInfo" = Some account ->
  section_items d "AccountProfileInfo" = Some profile ->
  section_items d "GuildInfo" = Some guild ->
  section_items d "SocialInfo" = Some social ->
  dict_lookup (lit "signature") social = Some sig ->
  match sig with
  | PStr _ => False
  | PList l => 50 < List.length l
  | PDict items => 50 < List.length (dict_keys items)
  | _ => True
  end ->
  fst (get_player_info repr w player_id server st) =
  if stdout w (PlayerInfoError player_id OtherError)
  then Ok (fallback_info (marked [CROSS_MARK] "Error") server)
  else Raise OtherError.
Proof.
  intros Hw Ha Hp Hg Hs Hsig Hbad.
  rewrite (@get_player_info_200 repr w player_id server st _ Hw).
  rewrite (@parse_body_sections repr d _ _ _ _ server Ha Hp Hg Hs).
  unfold dict_get at 1. rewrite Hsig.
  assert (R : truncate_signature sig = Raise OtherError).
  { unfold truncate_signature.
    destruct sig as [| | | | |l|items]; try reflexivity; try contradiction;
      cbn [py_len rbind]; apply Nat.ltb_lt in Hbad; rewrite Hbad; reflexivity. }
  rewrite R. apply recover_other.
Qed.

Lemma truncate_signature_bound (sig : pyval) (s : pystr) :
  truncate_signature sig = Ok (PStr s) -> List.length s <= 53.
Proof.
  destruct sig as [| | | |t|l|items]; try discriminate.
  - rewrite truncate_signature_str. intros H.
    pose proof (f_equal (fun r => match r with
                                  | Ok (PStr x) => List.length x
                                  | _ => 0
                                  end) H) as S.
    cbv beta match in S. rewrite <- S. clear H S.
    destruct (Nat.ltb 50 (List.length t)) eqn:E.
    + rewrite length_app. pose proof (firstn_le_length 50 t) as L.
      change (List.length (lit "...")) with 3. lia.
    + apply Nat.ltb_ge in E. lia.
  - unfold truncate_signature. cbn [py_len rbind].
    destruct (Nat.ltb 50 (List.length l)); discriminate.
  - unfold truncate_signature. cbn [py_len rbind].
    destruct (Nat.ltb 50 (List.length (dict_keys items))); discriminate.
Qed.

(** The records that [get_player_info] can return: a fallback, or the
    record read from an answer 200 with well-formed sections. *)
Lemma get_player_info_cases
      (w : World) (player_id server : pystr) (st : State) (info : player_info) :
  fst (get_player_info repr w player_id server st) = Ok info ->
  (exists nick, info = fallback_info nick server) \/
  (exists d account profile guild social shown,
     section_items d "AccountInfo" = Some account /\
     section_items d "AccountProfileInfo" = Some profile /\
     section_items d "GuildInfo" = Some guild /\
     section_items d "SocialInfo" = Some social /\
     http w (INFO_API ++ player_id) = Responded 200 (Some (PDict d)) /\
     truncate_signature (dict_get social (lit "signature") (PStr [])) =
     Ok shown /\
     parse_body repr
       {| status_code := 200; body_json := Some (PDict d) |} server = Ok info /\
     signature info = Some shown).
Proof.
  rewrite get_player_info_eq. cbn [fst].
  assert (F : forall r, recover w player_id server (Raise r) = Ok info ->
                        exists nick, info = fallback_info nick server).
  { intros r H. unfold recover, py_print in H.
    destruct r; destruct (stdout w _); cbn [rbind] in H;
      try discriminate H; injection H as <-; eexists; reflexivity. }
  destruct (http w (INFO_API ++ player_id)) as [code body| |];
    [|intros H; left; exact (F _ H)|intros H; left; exact (F _ H)].
  unfold parse_response. cbn [status_code].
  destruct (Z.eqb code 200) eqn:E; cbn [negb].
  - apply Z.eqb_eq in E. subst code.
    destruct (sections_of body) as [[[[a p] g] so]|] eqn:S.
    + destruct (sections_of_some _ S) as (d & -> & Ha & Hp & Hg & Hs).
      pose proof (@parse_body_sections repr d _ _ _ _ server Ha Hp Hg Hs) as PB.
      destruct (truncate_signature (dict_get so (lit "signature") (PStr [])))
        as [shown|e] eqn:T; cbn [rbind] in PB; rewrite PB.
      * cbn [recover]. intros H. injection H as <-. right.
        exists d, a, p, g, so, shown. repeat split; assumption.
      * intros H. left. exact (F _ H).
    + rewrite (parse_body_malformed _ server S). intros H. left. exact (F _ H).
  - unfold py_print at 1.
    destruct (stdout w (InfoError player_id code)); cbn [rbind].
    + cbn [recover]. intros H. injection H as <-. left. eexists. reflexivity.
    + intros H. left. exact (F OtherError H).
Qed.

(** Whatever the account service answers, a signature text in the record
    has at most 53 characters. *)
Theorem stored_signature_bounded
        (w : World) (player_id server : pystr) (st : State)
        (info : player_info) (s : pystr) :
  fst (get_player_info repr w player_id server st) = Ok info ->
  signature info = Some (PStr s) ->
  List.length s <= 53.
Proof.
  intros H Hs.
  destruct (@get_player_info_cases w player_id server st info H)
    as [[nick ->]|(d & a & p & g & so & shown & _ & _ & _ & _ & _ & T & _ & Hsig)].
  - discriminate Hs.
  - rewrite Hsig in Hs. injection Hs as ->.
    exact (truncate_signature_bound _ T).
Qed.


(** The [server] argument is a label and nothing else: in one world, the
    calls for two regions both raise the same exception, or both return
    records that agree on every field but the region; the region is the
    [AccountRegion] that the account service sent, in both records, or
    else it is the [server] argument of each call. *)
Theorem server_only_labels_region
        (w : World) (player_id server1 server2 : pystr) (st1 st2 : State) :
  match fst (get_player_info repr w player_id server1 st1),
        fst (get_player_info repr w player_id server2 st2) with
  | Ok a, Ok b =>
      same_but_region a b /\
      ((exists sent,
          upstream_region w player_id = Some sent /\
          region a = sent /\ region b = sent) \/
       (region a = PStr server1 /\ region b = PStr server2))
  | Raise e1, Raise e2 => e1 = e2
  | _, _ => False
  end.
Proof.
  rewrite !get_player_info_eq. cbn [fst].
  assert (F : forall e,
    match recover w player_id server1 (Raise e),
          recover w player_id server2 (Raise e) with
    | Ok a, Ok b =>
        same_but_region a b /\
        ((exists sent,
            upstream_region w player_id = Some sent /\
            region a = sent /\ region b = sent) \/
         (region a = PStr server1 /\ region b = PStr server2))
    | Raise e1, Raise e2 => e1 = e2
    | _, _ => False
    end).
  { intros e. unfold recover, py_print.
    destruct e; destruct (stdout w _); cbn [rbind]; try reflexivity;
      (split; [repeat split|right; split; reflexivity]). }
  destruct (http w (INFO_API ++ player_id)) as [code body| |] eqn:Hh;
    try apply F.
  unfold parse_response. cbn [status_code].
  destruct (Z.eqb code 200) eqn:E; cbn [negb].
  - apply Z.eqb_eq in E. subst code.
    destruct (sections_of body) as [[[[ac p] g] so]|] eqn:S.
    + destruct (sections_of_some _ S) as (d & -> & Ha & Hp & Hg & Hs).
      rewrite !(@parse_body_sections repr d _ _ _ _ _ Ha Hp Hg Hs).
      destruct (truncate_signature (dict_get so (lit "signature") (PStr [])))
        as [shown|e]; cbn [rbind]; [|apply F].
      cbn [recover]. split; [repeat split|]. cbn [region]. unfold dict_get.
      destruct (dict_lookup (lit "AccountRegion") ac) as [sent|] eqn:R;
        [left|right; split; reflexivity].
      exists sent. unfold upstream_region. rewrite Hh, Ha. cbn [Z.eqb Pos.eqb].
      repeat split. exact R.
    + rewrite !(parse_body_malformed _ _ S). apply F.
  - unfold py_print.
    destruct (stdout w (InfoError player_id code)); cbn [rbind recover].
    + split; [repeat split|right; split; reflexivity].
    + unfold py_print.
      destruct (stdout w (PlayerInfoError player_id OtherError));
        cbn [rbind]; [|reflexivity].
      split; [repeat split|right; split; reflexivity].
Qed.

(** ** Timestamps *)

Lemma split_space_spaceless (s : pystr) :
  Forall (fun t => spaceless t = true) (split_space s).
Proof.
  induction s as [|c r IH]; cbn [split_space].
  - repeat constructor.
  - destruct (N.eqb c PyStr.space) eqn:E.
    + constructor; [reflexivity|exact IH].
    + destruct (split_space r) as [|t ts].
      * constructor; [|constructor]. unfold spaceless. cbn. now rewrite E.
      * inversion IH as [|? ? Ht Hts]; subst. constructor; [|exact Hts].
        unfold spaceless in *. cbn [forallb]. now rewrite E, Ht.
Qed.

Lemma split_space_of_spaceless (t : pystr) :
  spaceless t = true -> split_space t = [t].
Proof.
  unfold spaceless. induction t as [|c t IH]; cbn [forallb split_space];
    [reflexivity|].
  intros H. apply andb_prop in H. destruct H as [Hc Ht].
  apply negb_true_iff in Hc. rewrite Hc, (IH Ht). reflexivity.
Qed.

Lemma spaceless_count (t : pystr) :
  spaceless t = true -> count_occ N.eq_dec t PyStr.space = 0.
Proof.
  unfold spaceless. induction t as [|c t IH]; cbn [forallb count_occ];
    [reflexivity|].
  intros H. apply andb_prop in H. destruct H as [Hc Ht].
  apply negb_true_iff, N.eqb_neq in Hc.
  destruct (N.eq_dec c PyStr.space); [contradiction|exact (IH Ht)].
Qed.

(** What [parse_date_string] returns for a string that is not empty, by
    the number of its tokens. *)
Lemma parse_date_string_nonempty (c : N) (r : pystr) :
  parse_date_string (PStr (c :: r)) =
  PStr (match split_space (c :: r) with
        | t1 :: t2 :: _ => t1 ++ PyStr.space :: t2
        | _ => c :: r
        end).
Proof.
  unfold parse_date_string. cbn [truthy List.length Nat.eqb negb].
  destruct (split_space (c :: r)) as [|t1 [|t2 ts]]; reflexivity.
Qed.

(** The text that [parse_date_string] returns for a string holds at most
    one space, and it is the beginning of the string unless the string is
    empty, in which case it is the "Unknown" text. *)
Theorem parse_date_string_shape (s : pystr) :
  exists r,
    parse_date_string (PStr s) = PStr r /\
    count_occ N.eq_dec r PyStr.space <= 1 /\
    match s with
    | [] => r = marked [CROSS_MARK] "Unknown"
    | _ => exists rest, s = r ++ rest
    end.
Proof.
  destruct s as [|c r].
  - eexists. split; [reflexivity|]. split; [|reflexivity].
    vm_compute. lia.
  - rewrite parse_date_string_nonempty.
    pose proof (join_split_space (c :: r)) as J.
    pose proof (split_space_spaceless (c :: r)) as F.
    pose proof (split_space_not_nil (c :: r)) as NN.
    destruct (split_space (c :: r)) as [|t1 [|t2 ts]]; [congruence| |].
    + eexists. split; [reflexivity|]. cbn in J. rewrite <- J.
      inversion F as [|? ? H1 _]; subst.
      rewrite (spaceless_count _ H1). split; [lia|].
      exists []. now rewrite app_nil_r.
    + eexists. split; [reflexivity|].
      inversion F as [|? ? H1 F']; subst.
      inversion F' as [|? ? H2 _]; subst.
      split.
      * rewrite count_occ_app. cbn [count_occ].
        destruct (N.eq_dec PyStr.space PyStr.space); [|congruence].
        rewrite (spaceless_count _ H1), (spaceless_count _ H2). lia.
      * rewrite <- J. rewrite join_space_cons by discriminate.
        destruct ts as [|t3 ts].
        -- exists []. cbn [join_space]. now rewrite app_nil_r.
        -- rewrite join_space_cons by discriminate.
           exists (PyStr.space :: join_space (t3 :: ts)).
           rewrite <- app_assoc. reflexivity.
Qed.

(** [parse_date_string] is idempotent on strings: a text it has returned
    is returned as it is. *)
Theorem parse_date_string_idempotent (s : pystr) :
  parse_date_string (parse_date_string (PStr s)) = parse_date_string (PStr s).
Proof.
  destruct s as [|c r]; [reflexivity|].
  rewrite parse_date_string_nonempty.
  pose proof (split_space_spaceless (c :: r)) as F.
  destruct (split_space (c :: r)) as [|t1 [|t2 ts]] eqn:E.
  - rewrite parse_date_string_nonempty, E. reflexivity.
  - rewrite parse_date_string_nonempty, E. reflexivity.
  - inversion F as [|? ? H1 F']; subst.
    inversion F' as [|? ? H2 _]; subst.
    assert (S : split_space (t1 ++ PyStr.space :: t2) = [t1; t2]).
    { rewrite (@split_space_token t1 t2 H1).
      now rewrite (split_space_of_spaceless _ H2). }
    unfold parse_date_string. rewrite S.
    destruct t1; reflexivity.
Qed.


(** ** Regions, records and the ban answer *)

(** The cache is keyed by the region as well: a lookup for one region does
    not serve another.  After a request for an identifier under one region,
    a request for the same identifier under another region that is not
    resident fetches the account service again. *)
Theorem regions_are_cached_apart
        (w1 w2 : World) (player_id server1 server2 : pystr) (st : State) :
  server1 <> server2 ->
  lru_find cache_key_eq_dec (player_id, server2) (st_cache st) = None ->
  let st1 := snd (check_banned_fast repr w1 player_id server1 st) in
  st_calls (snd (check_banned_fast repr w2 player_id server2 st1)) =
  st_calls st1 ++ [INFO_API ++ player_id; BAN_API ++ player_id].
Proof.
  intros N H. cbv zeta.
  assert (A : lru_find cache_key_eq_dec (player_id, server2)
                (st_cache (snd (check_banned_fast repr w1 player_id server1 st)))
              = None).
  { rewrite check_banned_fast_eq. cbv zeta. cbn [snd st_cache].
    rewrite cached_cache.
    destruct (fst (get_player_info_cached repr w1 player_id server1 st))
      as [fresh|e]; [|exact H].
    apply lru_step_other_absent; [congruence|exact H]. }
  set (st1 := snd (check_banned_fast repr w1 player_id server1 st)) in *.
  clearbody st1.
  rewrite check_banned_fast_eq. cbv zeta. cbn [snd st_calls].
  rewrite (@cached_miss repr w2 _ _ _ A). cbn [snd st_calls].
  rewrite <- app_assoc. reflexivity.
Qed.


(** From the answer of the ban service to the result: for an answer 200
    whose ["data"] is an object, the status text is the success text, the
    account is shown as banned exactly when ["is_banned"] is truthy (absent
    counts as 0), and the duration then shows ["period"] (absent counts as
    0).  There is no result only when the account lookup raises. *)
Theorem ban_answer_shown
        (w : World) (player_id server : pystr) (st : State)
        (body data : list (pystr * pyval)) :
  http w (BAN_API ++ player_id) = Responded 200 (Some (PDict body)) ->
  dict_get body (lit "data") (PDict []) = PDict data ->
  let flag := truthy (dict_get data (lit "is_banned") (PInt 0)) in
  match fst (check_banned_fast repr w player_id server st) with
  | Ok result =>
      body_lookup KEY_STATUS result =
      Some (PStr (lit "Account checked successfully")) /\
      body_lookup KEY_ACCOUNT result =
      Some (PStr (if flag then marked [NO_ENTRY] "BANNED"
                  else marked [CHECK_MARK] "NOT BANNED")) /\
      body_lookup KEY_DURATION result =
      Some (PStr (if flag
                  then py_str repr (dict_get data (lit "period") (PInt 0)) ++
                       lit " month(s)"
                  else lit "No ban")) /\
      body_lookup KEY_BANNED result = Some (PBool flag)
  | Raise e =>
      fst (get_player_info_cached repr w player_id server st) = Raise e
  end.
Proof.
  intros Hw Hd. cbv zeta. rewrite check_banned_fast_value.
  destruct (fst (get_player_info_cached repr w player_id server st))
    as [info|e]; [|reflexivity].
  assert (B : fst (check_ban_status w player_id st) =
              {| is_banned := dict_get data (lit "is_banned") (PInt 0);
                 period := dict_get data (lit "period") (PInt 0);
                 success := true |}).
  { rewrite check_ban_status_eq, Hw. unfold parse_ban.
    cbn [status_code body_json response_json Z.eqb Pos.eqb rbind py_get].
    rewrite Hd. reflexivity. }
  rewrite B. apply aggregate_ban_fields.
Qed.

(** A failure that cannot be logged is not turned into a fallback.  When
    the account service times out for a pair that is not resident and the
    standard output does not take the diagnostic line, [get_player_info]
    raises; nothing is cached, both services have been fetched, and the
    request to [/check] is answered 500. *)
Theorem unprinted_failure_escapes
        (w : World) (args : query_args) (st : State) :
  let player_id := args_get (arg_uid args) [] in
  let server := args_get (arg_server args) (lit "BD") in
  PyStr.isdigit player_id = true ->
  lru_find cache_key_eq_dec (player_id, server) (st_cache st) = None ->
  http w (INFO_API ++ player_id) = TimedOut ->
  stdout w (TimeoutError player_id) = false ->
  fst (get_player_info repr w player_id server st) = Raise OtherError /\
  st_cache (snd (check repr w args st)) = st_cache st /\
  st_calls (snd (check repr w args st)) =
  st_calls st ++ [INFO_API ++ player_id; BAN_API ++ player_id] /\
  http_status (fst (check repr w args st)) = 500%Z.
Proof.
  cbv zeta. intros Hd Hmiss Hw Hout.
  set (player_id := args_get (arg_uid args) []) in *.
  set (server := args_get (arg_server args) (lit "BD")) in *.
  assert (G : fst (get_player_info repr w player_id server st) =
              Raise OtherError).
  { rewrite get_player_info_eq, Hw. cbn [fst recover]. unfold py_print.
    rewrite Hout. reflexivity. }
  split; [exact G|].
  rewrite (@check_valid_uid repr w args st Hd). cbv zeta. cbn [fst snd].
  fold player_id server.
  rewrite route_except_status, check_banned_fast_eq. cbv zeta.
  cbn [fst snd st_cache st_calls].
  rewrite (@cached_miss repr w _ _ _ Hmiss). cbn [fst snd st_cache st_calls].
  rewrite G. cbn [rbind]. rewrite <- app_assoc.
  repeat split.
Qed.

End Coverage.

(** * Examples *)

Example check_without_uid :
  check sample_repr empty_world {| arg_uid := None; arg_server := None |}
    initial_state =
  (Ok {| resp_status := 400;
         resp_body := error_body "Player ID (uid) is required!" 400 |},
   initial_state).
Proof. reflexivity. Qed.

Example check_signed_uid :
  check sample_repr empty_world
    {| arg_uid := Some (lit "-5"); arg_server := None |} initial_state =
  (Ok {| resp_status := 400;
         resp_body := error_body "Invalid UID format. Must be numeric!" 400 |},
   initial_state).
Proof. reflexivity. Qed.

Example check_uid_with_point_or_blank :
  http_status (fst (check sample_repr empty_world
                      {| arg_uid := Some (lit "1.5"); arg_server := None |}
                      initial_state)) = 400%Z /\
  http_status (fst (check sample_repr empty_world
                      {| arg_uid := Some (lit " 12"); arg_server := None |}
                      initial_state)) = 400%Z.
Proof. split; reflexivity. Qed.

Example check_banned_three_months :
  exists result,
    fst (check sample_repr (banned_world 3)
           {| arg_uid := Some (lit "123456789"); arg_server := None |}
           initial_state) =
    Ok {| resp_status := 200; resp_body := result |} /\
    body_lookup KEY_ACCOUNT result = Some (PStr (marked [NO_ENTRY] "BANNED")) /\
    body_lookup KEY_DURATION result = Some (PStr (lit "3 month(s)")) /\
    body_lookup KEY_STATUS result =
    Some (PStr (lit "Account checked successfully")).
Proof. eexists. vm_compute. repeat split. Qed.

(** A lone surrogate in the name that the account service sends: the
    result cannot be encoded and the request is answered 500. *)
Example check_surrogate_name :
  fst (check sample_repr
         (answering
            (fun _ =>
               Responded 200
                 (Some (PDict [ (lit "AccountInfo",
                                 PDict [ (lit "AccountName",
                                          PStr SURROGATE) ]) ]))))
         {| arg_uid := Some (lit "123"); arg_server := None |}
         initial_state) =
  Ok {| resp_status := 500; resp_body := exception_body |}.
Proof. reflexivity. Qed.

Example signature_of_sixty :
  truncate_signature (PStr (lit SIXTY)) =
  Ok (PStr (lit "01234567890123456789012345678901234567890123456789...")).
Proof. reflexivity. Qed.

Example signature_of_forty :
  truncate_signature (PStr (lit FORTY)) = Ok (PStr (lit FORTY)).
Proof. reflexivity. Qed.

Example date_without_time :
  parse_date_string (PStr (lit "2025-02-10")) = PStr (lit "2025-02-10").
Proof. reflexivity. Qed.

Lemma utf8_stdout_prints (answers : pystr -> http_outcome) (uid : pystr) :
  utf8_text uid = true -> prints_for (answering answers) uid.
Proof.
  intros H line E. cbn [stdout answering]. unfold utf8_stdout.
  rewrite E. exact H.
Qed.

(** ** The claims that the code does not meet as they are written *)

(** C2 as it is written fails twice.  On a status 500 the nickname of the
    fallback is not the text "Fetch failed": it starts with U+274C and a
    space.  And for an identifier that the standard output cannot encode,
    here a lone surrogate under UTF-8, a timeout of the account service
    ends in an exception that leaves [get_player_info]. *)
Lemma get_player_info_claim_fails :
  (exists info,
     fst (get_player_info sample_repr failing_world (lit "123") (lit "BD")
            initial_state) = Ok info /\
     nickname info <> PStr (lit "Fetch failed")) /\
  fst (get_player_info sample_repr timeout_world SURROGATE (lit "BD")
         initial_state) = Raise OtherError.
Proof.
  split; [|reflexivity].
  eexists. split; [reflexivity|]. discriminate.
Qed.

(** C6 as it is written fails: for a banned account the account text is
    not the text "BANNED", it starts with U+1F6AB and a space; for one that
    is not banned it is not "NOT BANNED", it starts with U+2705 and a
    space. *)
Lemma ban_texts_claim_fails :
  (exists result,
     fst (check_banned_fast sample_repr (banned_world 3) (lit "123") (lit "BD")
            initial_state) = Ok result /\
     body_lookup KEY_BANNED result = Some (PBool true) /\
     body_lookup KEY_ACCOUNT result <> Some (PStr (lit "BANNED"))) /\
  (exists result,
     fst (check_banned_fast sample_repr empty_world (lit "123") (lit "BD")
            initial_state) = Ok result /\
     body_lookup KEY_BANNED result = Some (PBool false) /\
     body_lookup KEY_ACCOUNT result <> Some (PStr (lit "NOT BANNED"))).
Proof.
  split; eexists; (split; [reflexivity|]); (split; [reflexivity|]);
    discriminate.
Qed.

(** C9 as it is written fails: the account service answers 200 with a
    JSON body, a text with a lone surrogate, and [get_full_info] answers
    500 with the exception body, since the response cannot be encoded. *)
Lemma get_full_info_claim_fails :
  http surrogate_world (INFO_API ++ lit "123") =
  Responded 200 (Some (PStr SURROGATE)) /\
  fst (get_full_info surrogate_world (lit "123") initial_state) =
  Ok {| resp_status := 500; resp_body := exception_body |}.
Proof. split; reflexivity. Qed.

(** ** Instances *)

Lemma get_player_info_fallbacks_witness :
  prints_for failing_world (lit "123") /\
  fst (get_player_info sample_repr failing_world (lit "123") (lit "BD")
         initial_state) =
  Ok (fallback_info (marked [CROSS_MARK] "Fetch failed") (lit "BD")).
Proof.
  assert (P : prints_for failing_world (lit "123"))
    by (apply utf8_stdout_prints; reflexivity).
  split; [exact P|].
  exact (proj2 (@get_player_info_fallbacks sample_repr failing_world
                  (lit "123") (lit "BD") initial_state P)).
Defined.

Lemma cache_bounded_lru_witness :
  let keys := served sample_repr sample_lookups initial_state in
  let resident :=
    lru_keys (st_cache (lookups sample_repr sample_lookups initial_state)) in
  NoDup keys /\
  List.length keys = 101 /\
  exists first,
    keys = first :: resident /\ ~ In first resident /\
    List.length resident = 100.
Proof.
  cbv zeta.
  assert (D : NoDup (served sample_repr sample_lookups initial_state)).
  { assert (E : nodup cache_key_eq_dec
                  (served sample_repr sample_lookups initial_state) =
                served sample_repr sample_lookups initial_state)
      by (vm_compute; reflexivity).
    rewrite <- E. apply NoDup_nodup. }
  assert (L : List.length (served sample_repr sample_lookups initial_state)
              = 101) by (vm_compute; reflexivity).
  split; [exact D|]. split; [exact L|].
  exact (proj2 (proj2 (cache_bounded_lru sample_repr sample_lookups)) D L).
Defined.

Lemma cache_hit_idempotent_witness :
  let args := {| arg_uid := Some (lit "123"); arg_server := None |} in
  let first := check sample_repr (sample_world "Alice" "hi") args initial_state in
  let second := check sample_repr (sample_world "Bob" "yo") args (snd first) in
  PyStr.isdigit (lit "123") = true /\
  exists r1 r2,
    fst first = Ok r1 /\ resp_status r1 = 200%Z /\
    fst second = Ok r2 /\ resp_status r2 = 200%Z /\
    body_lookup KEY_NICKNAME (resp_body r1) = Some (PStr (lit "Alice")) /\
    account_fields (resp_body r2) = account_fields (resp_body r1).
Proof.
  cbv zeta. split; [reflexivity|].
  eexists. eexists.
  split; [reflexivity|]. split; [reflexivity|].
  split; [reflexivity|]. split; [reflexivity|]. split; [reflexivity|].
  exact (proj2 (proj2 (proj2
           (@cache_hit_idempotent sample_repr
              (sample_world "Alice" "hi") (sample_world "Bob" "yo")
              {| arg_uid := Some (lit "123"); arg_server := None |}
              initial_state eq_refl)))
           _ _ eq_refl eq_refl eq_refl eq_refl).
Defined.

Lemma signature_truncated_at_50_witness :
  let w := sample_world "Alice" SIXTY in
  let d := sample_account "Alice" SIXTY in
  (http w (INFO_API ++ lit "123") = Responded 200 (Some (PDict d)) /\
   section_items d "SocialInfo" =
   Some [ (lit "signature", PStr (lit SIXTY)) ]) /\
  exists info,
    fst (get_player_info sample_repr w (lit "123") (lit "BD") initial_state) =
    Ok info /\
    signature info =
    Some (PStr (lit "01234567890123456789012345678901234567890123456789...")).
Proof.
  cbv zeta. split; [split; reflexivity|].
  exact (@signature_truncated_at_50 sample_repr
           (sample_world "Alice" SIXTY) (lit "123") (lit "BD") initial_state
           (sample_account "Alice" SIXTY) _ [] [] _ (lit SIXTY)
           eq_refl eq_refl eq_refl eq_refl eq_refl eq_refl).
Defined.

Lemma placeholder_on_missing_keys_witness :
  (http empty_world (INFO_API ++ lit "123") = Responded 200 (Some (PDict [])) /\
   section_items [] "AccountInfo" = Some []) /\
  (fst (get_player_info sample_repr empty_world (lit "123") (lit "SG")
          initial_state) = Ok (placeholder_info (lit "SG")) /\
   (forall nick region,
      placeholder_info (lit "SG") <> fallback_info nick region) /\
   body_lookup KEY_BIO
     (aggregate sample_repr (lit "123") (placeholder_info (lit "SG"))
        ban_failed) = None).
Proof.
  split; [split; reflexivity|].
  exact (@placeholder_on_missing_keys sample_repr empty_world
           (lit "123") (lit "SG") initial_state [] [] [] [] [] ban_failed
           eq_refl eq_refl eq_refl eq_refl eq_refl eq_refl eq_refl eq_refl
           eq_refl eq_refl eq_refl eq_refl eq_refl eq_refl).
Defined.

Lemma check_rejects_ascii_non_digit_witness :
  let out :=
    check sample_repr empty_world
      {| arg_uid := Some (lit "12a"); arg_server := None |} initial_state in
  (In 97%N (lit "12a") /\ (97 < 128)%N /\ char_is_ascii_digit 97 = false) /\
  (http_status (fst out) = 400%Z /\
   snd out = initial_state /\
   fst out =
   Ok {| resp_status := 400;
         resp_body :=
           error_body "Invalid UID format. Must be numeric!" 400 |}).
Proof.
  cbv zeta.
  assert (I : In 97%N (lit "12a")) by (right; right; left; reflexivity).
  split; [split; [exact I|split; reflexivity]|].
  exact (@check_rejects_ascii_non_digit sample_repr empty_world (lit "12a")
           None initial_state 97%N I eq_refl eq_refl).
Defined.

Lemma check_accepts_ascii_digits_witness :
  let result :=
    aggregate sample_repr (lit "123456789") (placeholder_info (lit "BD"))
      {| is_banned := PInt 0; period := PInt 0; success := true |} in
  (all_ascii_digits (lit "123456789") = true /\
   fst (check_banned_fast sample_repr empty_world (lit "123456789")
          (lit "BD") initial_state) = Ok result /\
   utf8_encodable result = true) /\
  (fst (check sample_repr empty_world
          {| arg_uid := Some (lit "123456789"); arg_server := None |}
          initial_state) =
   Ok {| resp_status := 200; resp_body := result |} /\
   body_lookup KEY_UID result = Some (PStr (lit "123456789"))).
Proof.
  cbv zeta. split; [repeat split|].
  exact (@check_accepts_ascii_digits sample_repr empty_world
           (lit "123456789") None initial_state
           (aggregate sample_repr (lit "123456789")
              (placeholder_info (lit "BD"))
              {| is_banned := PInt 0; period := PInt 0; success := true |})
           eq_refl eq_refl eq_refl).
Defined.

Lemma failed_ban_lookup_shows_not_banned_witness :
  success (fst (check_ban_status timeout_world (lit "123") initial_state)) =
  false /\
  match fst (check_banned_fast sample_repr timeout_world (lit "123")
               (lit "BD") initial_state) with
  | Ok result =>
      body_lookup KEY_STATUS result = Some (PStr (lit "Partial data fetched")) /\
      body_lookup KEY_ACCOUNT result = Some (PStr NOT_BANNED) /\
      body_lookup KEY_DURATION result = Some (PStr (lit "No ban")) /\
      body_lookup KEY_BANNED result = Some (PBool false)
  | Raise _ => False
  end.
Proof.
  split; [reflexivity|].
  exact (@failed_ban_lookup_shows_not_banned sample_repr timeout_world
           (lit "123") (lit "BD") initial_state eq_refl).
Defined.

Lemma failed_fetch_is_cached_witness :
  let first :=
    check_banned_fast sample_repr timeout_world (lit "123") (lit "BD")
      initial_state in
  let second :=
    check_banned_fast sample_repr (sample_world "Alice" "hi") (lit "123")
      (lit "BD") (snd first) in
  (lru_find cache_key_eq_dec (lit "123", lit "BD") (st_cache initial_state) =
   None /\
   prints_for timeout_world (lit "123") /\
   http timeout_world (INFO_API ++ lit "123") = TimedOut) /\
  exists result1 result2,
    fst first = Ok result1 /\
    body_lookup KEY_NICKNAME result1 =
    Some (PStr (marked [CROSS_MARK] "Timeout")) /\
    body_lookup KEY_REGION result1 = Some (PStr (lit "BD")) /\
    body_lookup KEY_BIO result1 = None /\
    fst second = Ok result2 /\
    body_lookup KEY_NICKNAME result2 =
    Some (PStr (marked [CROSS_MARK] "Timeout")) /\
    st_calls (snd second) = st_calls (snd first) ++ [BAN_API ++ lit "123"].
Proof.
  cbv zeta.
  assert (P : prints_for timeout_world (lit "123"))
    by (apply utf8_stdout_prints; reflexivity).
  split; [split; [reflexivity|split; [exact P|reflexivity]]|].
  exact (@failed_fetch_is_cached sample_repr timeout_world
           (sample_world "Alice" "hi") (lit "123") (lit "BD")
           initial_state eq_refl P I).
Defined.

Lemma resident_record_is_stable_witness :
  let st := lookups sample_repr (firstn 3 sample_lookups) initial_state in
  let st' :=
    snd (get_player_info_cached sample_repr empty_world (lit "7") (lit "BD") st) in
  lru_find cache_key_eq_dec (sample_key 1) (st_cache st) =
  Some (fallback_info (marked [CROSS_MARK] "Error") (lit "BD")) /\
  (lru_find cache_key_eq_dec (sample_key 1) (st_cache st') =
   Some (fallback_info (marked [CROSS_MARK] "Error") (lit "BD")) \/
   lru_find cache_key_eq_dec (sample_key 1) (st_cache st') = None).
Proof.
  cbv zeta. split; [reflexivity|].
  exact (@resident_record_is_stable sample_repr (firstn 3 sample_lookups)
           empty_world (sample_key 1) (lit "7") (lit "BD") _ eq_refl).
Defined.

Lemma hit_refreshes_entry_witness :
  let reqs :=
    firstn 100 sample_lookups ++
    [(timeout_world, sample_key 1); (empty_world, sample_key 101)] in
  let rest := map sample_key (seq 3 98) in
  (served sample_repr reqs initial_state =
   sample_key 1 :: sample_key 2 :: rest ++ [sample_key 1; sample_key 101] /\
   List.length rest = 98 /\
   NoDup (sample_key 1 :: sample_key 2 :: rest ++ [sample_key 101])) /\
  lru_keys (st_cache (lookups sample_repr reqs initial_state)) =
  rest ++ [sample_key 1; sample_key 101].
Proof.
  cbv zeta.
  assert (K : served sample_repr
                (firstn 100 sample_lookups ++
                 [(timeout_world, sample_key 1);
                  (empty_world, sample_key 101)]) initial_state =
              sample_key 1 :: sample_key 2 ::
              map sample_key (seq 3 98) ++ [sample_key 1; sample_key 101])
    by (vm_compute; reflexivity).
  assert (D : NoDup (sample_key 1 :: sample_key 2 ::
                     map sample_key (seq 3 98) ++ [sample_key 101])).
  { assert (E : nodup cache_key_eq_dec
                  (sample_key 1 :: sample_key 2 ::
                   map sample_key (seq 3 98) ++ [sample_key 101]) =
                sample_key 1 :: sample_key 2 ::
                map sample_key (seq 3 98) ++ [sample_key 101])
      by (vm_compute; reflexivity).
    rewrite <- E. apply NoDup_nodup. }
  split; [split; [exact K|split; [reflexivity|exact D]]|].
  exact (@hit_refreshes_entry sample_repr _ (sample_key 1) (sample_key 2)
           (sample_key 101) (map sample_key (seq 3 98)) K eq_refl D).
Defined.

Lemma malformed_answer_gives_error_witness :
  (http null_section_world (INFO_API ++ lit "123") =
   Responded 200 (Some (PDict [ (lit "AccountInfo", PNone) ])) /\
   sections_of (Some (PDict [ (lit "AccountInfo", PNone) ])) = None) /\
  fst (get_player_info sample_repr null_section_world (lit "123") (lit "BD")
         initial_state) =
  Ok (fallback_info (marked [CROSS_MARK] "Error") (lit "BD")).
Proof.
  split; [split; reflexivity|].
  exact (@malformed_answer_gives_error sample_repr null_section_world
           (lit "123") (lit "BD") initial_state _ eq_refl eq_refl).
Defined.

Lemma malformed_signature_gives_error_witness :
  (http null_signature_world (INFO_API ++ lit "123") =
   Responded 200
     (Some (PDict [ (lit "SocialInfo", PDict [ (lit "signature", PNone) ]) ])) /\
   dict_lookup (lit "signature") [ (lit "signature", PNone) ] = Some PNone) /\
  fst (get_player_info sample_repr null_signature_world (lit "123") (lit "BD")
         initial_state) =
  Ok (fallback_info (marked [CROSS_MARK] "Error") (lit "BD")).
Proof.
  split; [split; reflexivity|].
  exact (@malformed_signature_gives_error sample_repr null_signature_world
           (lit "123") (lit "BD") initial_state
           [ (lit "SocialInfo", PDict [ (lit "signature", PNone) ]) ]
           [] [] [] [ (lit "signature", PNone) ] PNone
           eq_refl eq_refl eq_refl eq_refl eq_refl eq_refl I).
Defined.

Lemma stored_signature_bounded_witness :
  exists info,
    fst (get_player_info sample_repr (sample_world "Alice" SIXTY)
           (lit "123") (lit "BD") initial_state) = Ok info /\
    signature info =
    Some (PStr (lit "01234567890123456789012345678901234567890123456789...")) /\
    List.length (lit "01234567890123456789012345678901234567890123456789...")
    <= 53.
Proof.
  eexists. split; [reflexivity|]. split; [reflexivity|].
  exact (@stored_signature_bounded sample_repr (sample_world "Alice" SIXTY)
           (lit "123") (lit "BD") initial_state _ _ eq_refl eq_refl).
Defined.

Lemma regions_are_cached_apart_witness :
  let st1 :=
    snd (check_banned_fast sample_repr empty_world (lit "123") (lit "BD")
           initial_state) in
  (lit "BD" <> lit "SG" /\
   lru_find cache_key_eq_dec (lit "123", lit "SG") (st_cache initial_state) =
   None) /\
  st_calls
    (snd (check_banned_fast sample_repr empty_world (lit "123") (lit "SG") st1)) =
  st_calls st1 ++ [INFO_API ++ lit "123"; BAN_API ++ lit "123"].
Proof.
  cbv zeta.
  assert (N : lit "BD" <> lit "SG") by discriminate.
  split; [split; [exact N|reflexivity]|].
  exact (@regions_are_cached_apart sample_repr empty_world empty_world
           (lit "123") (lit "BD") (lit "SG") initial_state N eq_refl).
Defined.

Lemma ban_answer_shown_witness :
  let data := [ (lit "is_banned", PInt 1); (lit "period", PInt 3) ] in
  (http (banned_world 3) (BAN_API ++ lit "123") =
   Responded 200 (Some (PDict [ (lit "data", PDict data) ])) /\
   dict_get [ (lit "data", PDict data) ] (lit "data") (PDict []) = PDict data) /\
  match fst (check_banned_fast sample_repr (banned_world 3) (lit "123")
               (lit "BD") initial_state) with
  | Ok result =>
      body_lookup KEY_STATUS result =
      Some (PStr (lit "Account checked successfully")) /\
      body_lookup KEY_ACCOUNT result =
      Some (PStr (marked [NO_ENTRY] "BANNED")) /\
      body_lookup KEY_DURATION result = Some (PStr (lit "3 month(s)")) /\
      body_lookup KEY_BANNED result = Some (PBool true)
  | Raise _ => False
  end.
Proof.
  cbv zeta. split; [split; reflexivity|].
  exact (@ban_answer_shown sample_repr (banned_world 3) (lit "123") (lit "BD")
           initial_state _ _ eq_refl eq_refl).
Defined.

Lemma unprinted_failure_escapes_witness :
  let args := {| arg_uid := Some ARABIC_123; arg_server := None |} in
  let out := check sample_repr ascii_timeout_world args initial_state in
  (PyStr.isdigit ARABIC_123 = true /\
   all_ascii_digits ARABIC_123 = false /\
   http ascii_timeout_world (INFO_API ++ ARABIC_123) = TimedOut /\
   stdout ascii_timeout_world (TimeoutError ARABIC_123) = false) /\
  (fst (get_player_info sample_repr ascii_timeout_world ARABIC_123 (lit "BD")
          initial_state) = Raise OtherError /\
   st_cache (snd out) = [] /\
   st_calls (snd out) = [INFO_API ++ ARABIC_123; BAN_API ++ ARABIC_123] /\
   http_status (fst out) = 500%Z).
Proof.
  cbv zeta. split; [repeat split|].
  exact (@unprinted_failure_escapes sample_repr ascii_timeout_world
           {| arg_uid := Some ARABIC_123; arg_server := None |}
           initial_state eq_refl eq_refl eq_refl eq_refl).
Defined.
